(** * worldbank-mcp: the fetch layer, the reference cache and the tool handlers

    A shallow embedding of [src/index.ts].  The program is a thin
    adapter over the World Bank REST API: one fetch primitive
    ([makeWorldBankRequest]), a page aggregator ([getCompleteList]), two
    memoised reference collections ([getCountries], [getIndicators]),
    one observation query ([getCountryData]) and seven tool handlers.

    Modelling decisions.
    - Values that come back from the network are parsed JSON; the code
      casts them to its record types without checking, so they are
      modelled as JSON values ([json]) and every property access,
      truthiness test and strict comparison is written out.
    - A JavaScript string is modelled by the [string] of its UTF-8
      bytes.  [trim] removes the white space of the language, ASCII
      or not.  The case maps act on the letters of ASCII and leave
      every other byte alone, and [length] counts bytes: both are the
      JavaScript ones on ASCII text, which is what country codes,
      indicator keys and the literals of the program are.  A
      statement that depends on more than that says so.
    - JSON numbers are modelled as integers ([Z]): the only numbers the
      program computes with are page counts and lengths; the value of
      an observation is only compared with [null] and rendered.
    - The two module-level caches and the network are the only state.
      A computation is a function from the world to an outcome and a
      new world; an outcome is a value or a thrown exception. *)

From Stdlib Require Import List String Ascii ZArith Bool Lia Arith.
From Stdlib Require Import DecimalString.
From Equations Require Import Equations.
Import ListNotations.
Set Warnings "-register-all".
Local Open Scope string_scope.
Local Open Scope Z_scope.

(** ** Parsed JSON values

    [JObj] lists the own properties of a parsed object, each key once. *)

Inductive json : Type :=
| JNull : json
| JBool : bool -> json
| JNum : Z -> json
| JStr : string -> json
| JArr : list json -> json
| JObj : list (string * json) -> json.

(** A JavaScript value read out of parsed JSON: [None] is [undefined]. *)
Definition value : Type := option json.

(** Outcome of an expression that may throw (a [TypeError] here). *)
Inductive result (A : Type) : Type :=
| Ok : A -> result A
| Throw : result A.
Arguments Ok {A} _.
Arguments Throw {A}.

Definition rbind {A B} (r : result A) (f : A -> result B) : result B :=
  match r with
  | Ok a => f a
  | Throw => Throw
  end.

(** ** Strings *)

Module JsString.

Definition is_lower (c : ascii) : bool :=
  let n := nat_of_ascii c in (97 <=? n)%nat && (n <=? 122)%nat.

Definition is_upper (c : ascii) : bool :=
  let n := nat_of_ascii c in (65 <=? n)%nat && (n <=? 90)%nat.

Definition upper_char (c : ascii) : ascii :=
  if is_lower c then ascii_of_nat (nat_of_ascii c - 32) else c.

Definition lower_char (c : ascii) : ascii :=
  if is_upper c then ascii_of_nat (nat_of_ascii c + 32) else c.

Fixpoint map_string (f : ascii -> ascii) (s : string) : string :=
  match s with
  | EmptyString => EmptyString
  | String c s' => String (f c) (map_string f s')
  end.

(** [s.toUpperCase()] and [s.toLowerCase()] on ASCII text, where they
    map letter to letter.  The case mapping of the characters outside
    ASCII (under which the length of a string can change) is not
    modelled: their bytes are left as they are.  What is proved of
    these maps is therefore stated either for any text, when it does
    not depend on how they act, or for ASCII text. *)
Definition toUpperCase (s : string) : string := map_string upper_char s.
Definition toLowerCase (s : string) : string := map_string lower_char s.

Definition bytes (l : list nat) : string :=
  fold_right (fun n s => String (ascii_of_nat n) s) EmptyString l.

(** The white space and the line terminators of the language, each in
    UTF-8: U+0009 to U+000D, U+0020, U+00A0, U+1680, U+2000 to U+200A,
    U+2028, U+2029, U+202F, U+205F, U+3000 and U+FEFF. *)
Definition white_space : list string :=
  map bytes
    [ [9]; [10]; [11]; [12]; [13]; [32]; [194; 160]; [225; 154; 128];
      [226; 128; 128]; [226; 128; 129]; [226; 128; 130]; [226; 128; 131];
      [226; 128; 132]; [226; 128; 133]; [226; 128; 134]; [226; 128; 135];
      [226; 128; 136]; [226; 128; 137]; [226; 128; 138]; [226; 128; 168];
      [226; 128; 169]; [226; 128; 175]; [226; 129; 159]; [227; 128; 128];
      [239; 187; 191] ]%nat.

Definition white (w : string) : bool := existsb (String.eqb w) white_space.

(** [s.trimStart()]: white-space characters of one, two or three bytes
    are removed from the front, as long as there is one. *)
Fixpoint trimStart (s : string) : string :=
  match s with
  | EmptyString => s
  | String a r1 =>
      if white (String a EmptyString) then trimStart r1
      else
        match r1 with
        | EmptyString => s
        | String b r2 =>
            if white (String a (String b EmptyString)) then trimStart r2
            else
              match r2 with
              | EmptyString => s
              | String c r3 =>
                  if white (String a (String b (String c EmptyString)))
                  then trimStart r3
                  else s
              end
        end
  end.

(** [s.trimEnd()]: the string is cut where only white space follows. *)
Fixpoint trimEnd (s : string) : string :=
  if String.eqb (trimStart s) EmptyString then EmptyString
  else
    match s with
    | EmptyString => EmptyString
    | String c r => String c (trimEnd r)
    end.

(** [s.trim()]. *)
Definition trim (s : string) : string := trimEnd (trimStart s).

Fixpoint starts_with (p s : string) : bool :=
  match p, s with
  | EmptyString, _ => true
  | String a p', String b s' => Ascii.eqb a b && starts_with p' s'
  | String _ _, EmptyString => false
  end.

(** [s.includes(t)]: [t] occurs in [s] as a contiguous substring. *)
Fixpoint includes (s t : string) : bool :=
  starts_with t s ||
  match s with
  | EmptyString => false
  | String _ s' => includes s' t
  end.

Fixpoint join (sep : string) (l : list string) : string :=
  match l with
  | [] => EmptyString
  | [x] => x
  | x :: l' => x ++ sep ++ join sep l'
  end.

(** Decimal rendering of an integer, as [String(n)] gives it. *)
Definition of_Z (n : Z) : string :=
  NilZero.string_of_int (Z.to_int n).

End JsString.

(** ** The operators of the language the program uses on parsed values *)

Module Js.

(** [ToBoolean]. *)
Definition truthy (v : value) : bool :=
  match v with
  | None => false
  | Some JNull => false
  | Some (JBool b) => b
  | Some (JNum n) => negb (n =? 0)
  | Some (JStr s) => negb (String.eqb s "")
  | Some (JArr _) => true
  | Some (JObj _) => true
  end.

Fixpoint lookup (k : string) (fields : list (string * json)) : value :=
  match fields with
  | [] => None
  | (k', v) :: rest => if String.eqb k k' then Some v else lookup k rest
  end.

(** [v.k] for the property names the program reads ([message],
    [pages], [region], [value], [id], [iso2Code], [incomeLevel],
    [name], [unit], [date], [capitalCity], [latitude], [longitude],
    [length]).  Reading a property of [null]
    or [undefined] throws; an object yields its own field; a string
    or an array has [length] and none of the other names; a number
    or a boolean has none. *)
Definition prop (k : string) (v : value) : result value :=
  match v with
  | None => Throw
  | Some JNull => Throw
  | Some (JObj fields) => Ok (lookup k fields)
  | Some (JStr s) =>
      if String.eqb k "length" then Ok (Some (JNum (Z.of_nat (String.length s))))
      else Ok None
  | Some (JArr l) =>
      if String.eqb k "length" then Ok (Some (JNum (Z.of_nat (List.length l))))
      else Ok None
  | Some (JBool _) => Ok None
  | Some (JNum _) => Ok None
  end.

(** [v[1]] on a truthy value. *)
Definition index1 (v : json) : value :=
  match v with
  | JArr l => nth_error l 1
  | JObj fields => lookup "1" fields
  | JStr s =>
      match String.get 1 s with
      | Some c => Some (JStr (String c EmptyString))
      | None => None
      end
  | _ => None
  end.

(** [v === s] for a string [s]. *)
Definition strict_eq_str (v : value) (s : string) : bool :=
  match v with
  | Some (JStr s') => String.eqb s' s
  | _ => false
  end.

(** [v === n] for a number [n]. *)
Definition strict_eq_num (v : value) (n : Z) : bool :=
  match v with
  | Some (JNum m) => m =? n
  | _ => false
  end.

(** [v !== null]. *)
Definition strict_neq_null (v : value) : bool :=
  match v with
  | Some JNull => false
  | _ => true
  end.

(** [acc.concat(v)]: an array argument is spread, anything else is
    appended as one element. *)
Definition concat (acc : list json) (v : json) : list json :=
  match v with
  | JArr l => acc ++ l
  | _ => acc ++ [v]
  end.

(** Whether [ToString] returns on a parsed value.  It calls the
    [toString] method: on an object with an own [toString] field, which
    is no function, it falls back on the inherited [valueOf], gets the
    object back and throws a [TypeError]; on an array it renders the
    elements, and throws if one of them does. *)
Fixpoint renders_json (v : json) : bool :=
  match v with
  | JObj fields =>
      match lookup "toString" fields with
      | Some _ => false
      | None => true
      end
  | JArr l => forallb renders_json l
  | _ => true
  end.

Definition renders (v : value) : bool :=
  match v with
  | None => true
  | Some j => renders_json j
  end.

(** Whether [v.toLocaleString()] returns on a parsed value that is
    neither [null] nor [undefined]: an own [toLocaleString] field is
    no function, the inherited method of an object calls [toString],
    and the method of an array calls [toLocaleString] on each element
    that is not [null]. *)
Fixpoint locale_renders (v : json) : bool :=
  match v with
  | JObj fields =>
      match lookup "toLocaleString" fields, lookup "toString" fields with
      | None, None => true
      | _, _ => false
      end
  | JArr l =>
      forallb (fun x => match x with JNull => true | _ => locale_renders x end) l
  | _ => true
  end.

(** The string [ToString] gives when it returns.  An array renders its
    elements joined by commas, [null] elements as the empty string. *)
Fixpoint to_string_json (v : json) : string :=
  match v with
  | JNull => "null"
  | JBool true => "true"
  | JBool false => "false"
  | JNum n => JsString.of_Z n
  | JStr s => s
  | JArr l =>
      JsString.join ","
        (map (fun x => match x with JNull => "" | _ => to_string_json x end) l)
  | JObj _ => "[object Object]"
  end.

Definition to_string (v : value) : string :=
  match v with
  | None => "undefined"
  | Some j => to_string_json j
  end.

(** [`${v}`]: a substitution of a template literal. *)
Definition template (v : value) : result string :=
  if renders v then Ok (to_string v) else Throw.

(** [arr.filter(p)] for a predicate that may throw: the elements are
    tested in order and the first exception aborts the call. *)
Fixpoint filter (p : json -> result bool) (l : list json) : result (list json) :=
  match l with
  | [] => Ok []
  | x :: l' =>
      rbind (p x) (fun b =>
      rbind (filter p l') (fun r =>
      Ok (if b then x :: r else r)))
  end.

(** [arr.find(p)], likewise. *)
Fixpoint find (p : json -> result bool) (l : list json) : result value :=
  match l with
  | [] => Ok None
  | x :: l' =>
      rbind (p x) (fun b => if b then Ok (Some x) else find p l')
  end.

(** [arr.map(f)], likewise. *)
Fixpoint map_r {B} (f : json -> result B) (l : list json) : result (list B) :=
  match l with
  | [] => Ok []
  | x :: l' =>
      rbind (f x) (fun y => rbind (map_r f l') (fun r => Ok (y :: r)))
  end.

(** [v.includes(s)] for a string [s]: substring search on a string,
    membership on an array, and no such method on anything else. *)
Definition includes (v : value) (s : string) : result bool :=
  match v with
  | Some (JStr t) => Ok (JsString.includes t s)
  | Some (JArr l) => Ok (existsb (fun x => strict_eq_str (Some x) s) l)
  | _ => Throw
  end.

(** [v.toLowerCase().includes(s)]: only a string has [toLowerCase]. *)
Definition lower_includes (v : value) (s : string) : result bool :=
  match v with
  | Some (JStr t) => Ok (JsString.includes (JsString.toLowerCase t) s)
  | _ => Throw
  end.

(** [`${v || d}`]. *)
Definition or_default (v : value) (d : string) : result string :=
  if truthy v then template v else Ok d.

End Js.

(** ** The network and the state of the process *)

(** One GET of [makeWorldBankRequest]: the endpoint and the two query
    parameters the callers set ([format=json] is constant). *)
Record request : Type := mkRequest {
  endpoint : string;
  page : option Z;
  per_page : Z
}.

(** What [await axios.get(url, ...)] does: it rejects (time-out,
    network failure, status 500 and above) or resolves with the body in
    [response.data]. *)
Inductive axios_outcome : Type :=
| Rejected : axios_outcome
| Resolved : json -> axios_outcome.

(** The module-level variables and the requests made so far, each with
    what the upstream served. *)
Record world : Type := mkWorld {
  COUNTRIES_CACHE : list json;
  INDICATORS_CACHE : list json;
  traffic : list (request * axios_outcome)
}.

(** The state of a freshly started process. *)
Definition initial_world : world := mkWorld [] [] [].

Definition set_COUNTRIES_CACHE (l : list json) (w : world) : world :=
  mkWorld l (INDICATORS_CACHE w) (traffic w).

Definition set_INDICATORS_CACHE (l : list json) (w : world) : world :=
  mkWorld (COUNTRIES_CACHE w) l (traffic w).

(** A computation of the program. *)
Definition M (A : Type) : Type := world -> result A * world.

Definition ret {A} (a : A) : M A := fun w => (Ok a, w).

Definition bind {A B} (m : M A) (f : A -> M B) : M B :=
  fun w =>
    match m w with
    | (Ok a, w') => f a w'
    | (Throw, w') => (Throw, w')
    end.

Definition lift {A} (r : result A) : M A := fun w => (r, w).

Notation "x <- m ;; k" := (bind m (fun x => k))
  (at level 61, m at next level, right associativity).

(** The number of requests a computation issues from a given world. *)
Definition requests_issued {A} (m : M A) (w : world) : nat :=
  (List.length (traffic (snd (m w))) - List.length (traffic w))%nat.

(** ** The program *)

(** Line 14: the indicator table, in source order. *)
Definition COMMON_INDICATORS : list (string * string) :=
  [ ("GDP", "NY.GDP.MKTP.CD");
    ("GDP_GROWTH", "NY.GDP.MKTP.KD.ZG");
    ("GDP_PER_CAPITA", "NY.GDP.PCAP.CD");
    ("GNI", "NY.GNP.MKTP.CD");
    ("GNI_PER_CAPITA", "NY.GNP.PCAP.CD");
    ("EXPORTS_GDP", "NE.EXP.GNFS.ZS");
    ("FDI_NET", "BN.KLT.DINV.CD");
    ("INFLATION", "FP.CPI.TOTL.ZG");
    ("UNEMPLOYMENT", "SL.UEM.TOTL.ZS");
    ("POPULATION", "SP.POP.TOTL");
    ("LIFE_EXPECTANCY", "SP.DYN.LE00.IN");
    ("BIRTH_RATE", "SP.DYN.CBRT.IN");
    ("DEATH_RATE", "SP.DYN.CDRT.IN");
    ("INTERNET_USERS", "IT.NET.USER.ZS");
    ("LITERACY_RATE", "SE.ADT.LITR.ZS");
    ("SCHOOL_ENROLLMENT", "SE.PRM.ENRR");
    ("SCHOOL_COMPLETION", "SE.PRM.CMPT.ZS");
    ("TEACHERS_PRIMARY", "SE.PRM.TCHR");
    ("EDUCATION_EXPENDITURE", "SE.XPD.TOTL.GD.ZS");
    ("HEALTH_EXPENDITURE", "SH.XPD.CHEX.GD.ZS");
    ("PHYSICIANS", "SH.MED.PHYS.ZS");
    ("HOSPITAL_BEDS", "SH.MED.BEDS.ZS");
    ("IMMUNIZATION", "SH.IMM.MEAS");
    ("HIV_PREVALENCE", "SH.DYN.AIDS.ZS");
    ("MALNUTRITION", "SH.STA.MALN.ZS");
    ("TUBERCULOSIS", "SH.TBS.INCD") ].

(** [COMMON_INDICATORS] is an object literal, so [COMMON_INDICATORS[k]]
    also finds what every object inherits from [Object.prototype]. *)
Definition Object_prototype : list string :=
  [ "constructor"; "__proto__"; "hasOwnProperty"; "isPrototypeOf";
    "propertyIsEnumerable"; "toLocaleString"; "toString"; "valueOf";
    "__defineGetter__"; "__defineSetter__"; "__lookupGetter__";
    "__lookupSetter__" ].

(** What [COMMON_INDICATORS[k]] evaluates to when it is not [undefined]. *)
Inductive member : Type :=
| Own : string -> member          (* a series code of the table *)
| Inherited : string -> member.   (* a member of [Object.prototype] *)

Fixpoint assoc (k : string) (l : list (string * string)) : option string :=
  match l with
  | [] => None
  | (k', v) :: rest => if String.eqb k k' then Some v else assoc k rest
  end.

Definition COMMON_INDICATORS_get (k : string) : option member :=
  match assoc k COMMON_INDICATORS with
  | Some id => Some (Own id)
  | None =>
      if existsb (String.eqb k) Object_prototype then Some (Inherited k)
      else None
  end.

Definition member_truthy (m : option member) : bool :=
  match m with
  | None => false
  | Some (Own id) => negb (String.eqb id "")
  | Some (Inherited _) => true
  end.

(** [`${indicatorId}`]: the inherited members are native functions
    named after their key, except [constructor], which is the function
    [Object], and [__proto__], which is the prototype object itself. *)
Definition member_to_string (m : member) : string :=
  match m with
  | Own id => id
  | Inherited k =>
      if String.eqb k "__proto__" then "[object Object]"
      else if String.eqb k "constructor" then "function Object() { [native code] }"
      else "function " ++ k ++ "() { [native code] }"
  end.

(** The [params] argument of the fetch primitive. *)
Record QueryParams : Type := mkParams {
  qp_page : option Z;
  qp_per_page : option Z
}.

Definition no_params : QueryParams := mkParams None None.

(** Lines 80-97: what [makeWorldBankRequest] returns for what
    [axios.get] did.  [JNull] is the "no data" sentinel [null]. *)
Definition normalize (o : axios_outcome) : json :=
  match o with
  | Rejected => JNull
  | Resolved data =>
      match data with
      | JArr [] => JNull
      | JArr (firstItem :: _) =>
          if Js.truthy (Some firstItem)
             && match Js.prop "message" (Some firstItem) with
                | Ok m => Js.truthy m
                | Throw => false
                end
          then JNull
          else data
      | _ => data
      end
  end.

Definition NL : string := String (ascii_of_nat 10) EmptyString.

Section Program.

(** The upstream service: what [axios.get] does for a request, given
    everything that was exchanged before. *)
Variable upstream : list (request * axios_outcome) -> request -> axios_outcome.

(** [ToNumber] of the runtime on a string, an array or an object
    ([None] is [NaN]). *)
Variable ToNumber : json -> option Z.

(** [v.toLocaleString()] of the runtime on a value that is neither
    [null] nor [undefined]. *)
Variable toLocaleString : json -> string.

(** Lines 55-132. *)
Definition makeWorldBankRequest (ep : string) (params : QueryParams) : M json :=
  fun w =>
    let req := mkRequest ep (qp_page params)
                 (match qp_per_page params with Some n => n | None => 50 end) in
    let o := upstream (traffic w) req in
    (Ok (normalize o),
     mkWorld (COUNTRIES_CACHE w) (INDICATORS_CACHE w) (traffic w ++ [(req, o)])).

(** [currentPage >= v]. *)
Definition ge_value (currentPage : Z) (v : value) : bool :=
  match v with
  | None => false
  | Some JNull => 0 <=? currentPage
  | Some (JBool b) => (if b then 1 else 0) <=? currentPage
  | Some (JNum n) => n <=? currentPage
  | Some j =>
      match ToNumber j with
      | Some n => n <=? currentPage
      | None => false
      end
  end.

(** How one turn of the loop of [getCompleteList] ends. *)
Inductive completion : Type :=
| Continue : completion   (* [currentPage++] and the next turn *)
| Break : completion      (* one of the two [break]s *)
| Caught : completion.    (* an exception, caught at line 170 *)

(** Lines 146-165: the body of the loop. *)
Definition page_step (ep : string) (params : QueryParams) (perPage : Z)
    (currentPage : Z) (allData : list json) (w : world)
  : completion * list json * world :=
  match makeWorldBankRequest ep
          (mkParams (Some currentPage) (Some perPage)) w with
  | (Throw, w1) => (Caught, allData, w1)
  | (Ok response, w1) =>
      match response with
      | JArr (paginationInfo :: pageData :: _) =>
          let allData' := Js.concat allData pageData in
          match Js.prop "pages" (Some paginationInfo) with
          | Throw => (Caught, allData', w1)
          | Ok pages =>
              if ge_value currentPage pages then (Break, allData', w1)
              else (Continue, allData', w1)
          end
      | _ => (Break, allData, w1)
      end
  end.

(** Lines 145-169: [while (currentPage <= maxPages)]. *)
Equations? pages_loop (ep : string) (params : QueryParams) (maxPages perPage : Z)
    (currentPage : Z) (allData : list json) (w : world)
  : list json * world by wf (Z.to_nat (maxPages + 1 - currentPage)) lt :=
  pages_loop ep params maxPages perPage currentPage allData w
    with Z_le_dec currentPage maxPages => {
    | right _ => (allData, w)
    | left _ with page_step ep params perPage currentPage allData w => {
      | (Continue, allData', w') =>
          pages_loop ep params maxPages perPage (currentPage + 1) allData' w'
      | (_, allData', w') => (allData', w') } }.
Proof. lia. Qed.

(** Lines 135-175. *)
Definition getCompleteList (ep : string) (params : QueryParams)
    (maxPages perPage : Z) : M (list json) :=
  fun w =>
    let '(allData, w') := pages_loop ep params maxPages perPage 1 [] w in
    (Ok allData, w').

(** Lines 186-188: the predicate of the filter of [getCountries]. *)
Definition real_country (country : json) : result bool :=
  rbind (Js.prop "region" (Some country)) (fun region =>
  rbind (Js.prop "value" region) (fun v =>
  if negb (Js.strict_eq_str v "Aggregates") then
    rbind (Js.prop "id" (Some country)) (fun id =>
    rbind (Js.prop "length" id) (fun len =>
    Ok (Js.strict_eq_num len 3)))
  else Ok false)).

(** Lines 178-193. *)
Definition getCountries : M (list json) :=
  fun w =>
    if (0 <? Z.of_nat (List.length (COUNTRIES_CACHE w))) then
      (Ok (COUNTRIES_CACHE w), w)
    else
      (allCountries <- getCompleteList "countries" no_params 5 100 ;;
       if (0 <? Z.of_nat (List.length allCountries)) then
         kept <- lift (Js.filter real_country allCountries) ;;
         fun w' => (Ok kept, set_COUNTRIES_CACHE kept w')
       else ret []) w.

(** Lines 196-210. *)
Definition getIndicators : M (list json) :=
  fun w =>
    if (0 <? Z.of_nat (List.length (INDICATORS_CACHE w))) then
      (Ok (INDICATORS_CACHE w), w)
    else
      (allIndicators <- getCompleteList "indicators" no_params 10 50 ;;
       if (0 <? Z.of_nat (List.length allIndicators)) then
         fun w' => (Ok allIndicators, set_INDICATORS_CACHE allIndicators w')
       else ret []) w.

(** Line 220: [point.value !== null]. *)
Definition has_value (point : json) : result bool :=
  rbind (Js.prop "value" (Some point)) (fun v => Ok (Js.strict_neq_null v)).

(** Lines 213-224. *)
Definition getCountryData (countryCode : string) (indicatorId : string)
    (years : Z) : M (list json) :=
  response <- makeWorldBankRequest
                ("country/" ++ countryCode ++ "/indicator/" ++ indicatorId)
                (mkParams None (Some years)) ;;
  if Js.truthy (Some response) then
    match Js.index1 response with
    | Some (JArr points) => lift (Js.filter has_value points)
    | _ => ret []
    end
  else ret [].

(** Lines 227-235. *)
Definition formatCountryInfo (country : json) : result string :=
  let c := Some country in
  rbind (Js.prop "name" c) (fun name =>
  rbind (Js.template name) (fun nameText =>
  rbind (Js.prop "iso2Code" c) (fun iso2Code =>
  rbind (Js.template iso2Code) (fun iso2Text =>
  rbind (Js.prop "region" c) (fun region =>
  rbind (Js.prop "value" region) (fun regionValue =>
  rbind (Js.template regionValue) (fun regionText =>
  rbind (Js.prop "incomeLevel" c) (fun incomeLevel =>
  rbind (Js.prop "value" incomeLevel) (fun incomeValue =>
  rbind (Js.template incomeValue) (fun incomeText =>
  rbind (Js.prop "capitalCity" c) (fun capitalCity =>
  rbind (Js.template capitalCity) (fun capitalText =>
  rbind (Js.prop "latitude" c) (fun latitude =>
  rbind (Js.template latitude) (fun latitudeText =>
  rbind (Js.prop "longitude" c) (fun longitude =>
  rbind (Js.template longitude) (fun longitudeText =>
  Ok (JsString.trim
        (NL ++ "  Country: " ++ nameText
            ++ " (" ++ iso2Text ++ ")" ++ NL
            ++ "  Region: " ++ regionText ++ NL
            ++ "  Income Level: " ++ incomeText ++ NL
            ++ "  Capital: " ++ capitalText ++ NL
            ++ "  Coordinates: " ++ latitudeText
            ++ ", " ++ longitudeText ++ NL ++ "  ")))))))))))))))))).

(** Line 248, [point.value?.toLocaleString() || 'N/A']. *)
Definition formatValue (v : value) : result string :=
  match v with
  | None => Ok "N/A"
  | Some JNull => Ok "N/A"
  | Some j =>
      if Js.locale_renders j then
        let s := toLocaleString j in
        Ok (if String.eqb s "" then "N/A" else s)
      else Throw
  end.

(** Line 248: one row of the table. *)
Definition formatPoint (point : json) : result string :=
  let p := Some point in
  rbind (Js.prop "date" p) (fun date =>
  rbind (Js.template date) (fun dateText =>
  rbind (Js.prop "value" p) (fun v =>
  rbind (formatValue v) (fun valueText =>
  rbind (Js.prop "unit" p) (fun unit =>
  rbind (Js.or_default unit "N/A") (fun unitText =>
  Ok (dateText ++ " | " ++ valueText ++ " | " ++ unitText ++ "\\n"))))))).

(** Lines 238-252. *)
Definition formatIndicatorData (data : list json) (indicatorName : string)
  : result string :=
  if (Z.of_nat (List.length data) =? 0) then
    Ok ("No data found for " ++ indicatorName)
  else
    rbind (Js.map_r formatPoint data) (fun rows =>
    Ok (indicatorName ++ " data:\\n"
          ++ "Year | Value | Unit\\n"
          ++ "--- | --- | ---\\n"
          ++ String.concat "" rows)).

(** Lines 271-273 and 348-350: the predicate of the country lookup. *)
Definition code_matches (countryCode : string) (c : json) : result bool :=
  rbind (Js.prop "iso2Code" (Some c)) (fun iso2Code =>
  if Js.strict_eq_str iso2Code (JsString.toUpperCase countryCode) then Ok true
  else
    rbind (Js.prop "id" (Some c)) (fun id =>
    Ok (Js.strict_eq_str id (JsString.toUpperCase countryCode)))).

(** The lookup itself: [countries.find(c => ...)]. *)
Definition find_country (countries : list json) (countryCode : string)
  : result value :=
  Js.find (code_matches countryCode) countries.

(** Lines 285-286: the table key of a series code, or the key asked for. *)
Definition indicatorName_of (indicatorId : member) (indicatorKey : string)
  : string :=
  match indicatorId with
  | Own id =>
      match List.find (fun e => String.eqb (snd e) id) COMMON_INDICATORS with
      | Some (key, _) => if String.eqb key "" then indicatorKey else key
      | None => indicatorKey
      end
  | Inherited _ => indicatorKey
  end.

(** Lines 255-294; the result is the [text] of the single content
    block.  The identifier of the record is rendered by the template
    of line 215, before the request is made. *)
Definition handleIndicatorData (countryCode indicatorKey : string) (years : Z)
  : M string :=
  let indicatorId := COMMON_INDICATORS_get indicatorKey in
  match indicatorId with
  | None => ret "Error: Unsupported indicator type"
  | Some m =>
      if negb (member_truthy indicatorId) then
        ret "Error: Unsupported indicator type"
      else
        countries <- getCountries ;;
        country <- lift (find_country countries countryCode) ;;
        if negb (Js.truthy country) then ret "Error: Country not found"
        else
          id <- lift (Js.prop "id" country) ;;
          idText <- lift (Js.template id) ;;
          data <- getCountryData idText (member_to_string m) years ;;
          name <- lift (Js.prop "name" country) ;;
          nameText <- lift (Js.template name) ;;
          lift (formatIndicatorData data
                  (nameText ++ " - " ++ indicatorName_of m indicatorKey))
  end.

(** The seven tools and their arguments (lines 308-485). *)
Inductive tool_call : Type :=
| get_countries (region incomeLevel : option string)
| get_country_info (countryCode : string)
| search_indicators (keyword : string)
| get_economic_data (countryCode indicator : string) (years : option Z)
| get_social_data (countryCode indicator : string) (years : option Z)
| get_education_data (countryCode indicator : string) (years : option Z)
| get_health_data (countryCode indicator : string) (years : option Z).

(** Lines 319 and 322: [arg && arg.trim() !== '']. *)
Definition filter_given (arg : option string) : bool :=
  match arg with
  | None => false
  | Some s => negb (String.eqb s "") && negb (String.eqb (JsString.trim s) "")
  end.

(** Line 320: [c.region.value.includes(region)]. *)
Definition in_region (region : string) (c : json) : result bool :=
  rbind (Js.prop "region" (Some c)) (fun r =>
  rbind (Js.prop "value" r) (fun v => Js.includes v region)).

(** Line 323: [c.incomeLevel.value.includes(incomeLevel)]. *)
Definition in_incomeLevel (incomeLevel : string) (c : json) : result bool :=
  rbind (Js.prop "incomeLevel" (Some c)) (fun r =>
  rbind (Js.prop "value" r) (fun v => Js.includes v incomeLevel)).

(** Lines 318-324: the countries the tool lists. *)
Definition filteredCountries (region incomeLevel : option string)
    (countries : list json) : result (list json) :=
  rbind (match region with
         | Some r => if filter_given region then Js.filter (in_region r) countries
                     else Ok countries
         | None => Ok countries
         end) (fun byRegion =>
  match incomeLevel with
  | Some i => if filter_given incomeLevel then Js.filter (in_incomeLevel i) byRegion
              else Ok byRegion
  | None => Ok byRegion
  end).

(** Line 327. *)
Definition countryLine (country : json) : result string :=
  let c := Some country in
  rbind (Js.prop "name" c) (fun name =>
  rbind (Js.template name) (fun nameText =>
  rbind (Js.prop "iso2Code" c) (fun iso2Code =>
  rbind (Js.template iso2Code) (fun iso2Text =>
  rbind (Js.prop "region" c) (fun region =>
  rbind (Js.prop "value" region) (fun regionValue =>
  rbind (Js.template regionValue) (fun regionText =>
  rbind (Js.prop "incomeLevel" c) (fun incomeLevel =>
  rbind (Js.prop "value" incomeLevel) (fun incomeValue =>
  rbind (Js.template incomeValue) (fun incomeText =>
  Ok (nameText ++ " (" ++ iso2Text ++ ") - "
        ++ regionText ++ " - " ++ incomeText))))))))))).

(** Lines 379-382: the predicate of the indicator search. *)
Definition keyword_matches (keyword : string) (indicator : json) : result bool :=
  let kw := JsString.toLowerCase keyword in
  rbind (Js.prop "name" (Some indicator)) (fun name =>
  rbind (Js.lower_includes name kw) (fun byName =>
  if byName then Ok true
  else
    rbind (Js.prop "id" (Some indicator)) (fun id =>
    Js.lower_includes id kw))).

(** Lines 379-382: the indicators the tool lists. *)
Definition filteredIndicators (keyword : string) (indicators : list json)
  : result (list json) :=
  rbind (Js.filter (keyword_matches keyword) indicators) (fun matching =>
  Ok (firstn 20 matching)).

(** Line 394. *)
Definition indicatorLine (indicator : json) : result string :=
  let i := Some indicator in
  rbind (Js.prop "id" i) (fun id =>
  rbind (Js.template id) (fun idText =>
  rbind (Js.prop "name" i) (fun name =>
  rbind (Js.template name) (fun nameText =>
  rbind (Js.prop "unit" i) (fun unit =>
  rbind (Js.or_default unit "N/A") (fun unitText =>
  Ok (idText ++ ": " ++ nameText ++ " (" ++ unitText ++ ")"))))))).

Definition years_or_default (years : option Z) : Z :=
  match years with
  | Some n => n
  | None => 10
  end.

(** What each tool answers: the [text] of its single content block. *)
Definition call_tool (t : tool_call) : M string :=
  match t with
  | get_countries region incomeLevel =>
      countries <- getCountries ;;
      shown <- lift (filteredCountries region incomeLevel countries) ;;
      lines <- lift (Js.map_r countryLine shown) ;;
      let result := JsString.join "\n" lines in
      ret (if String.eqb result "" then "No countries found matching the criteria"
           else result)
  | get_country_info countryCode =>
      countries <- getCountries ;;
      country <- lift (find_country countries countryCode) ;;
      match country with
      | Some c =>
          if negb (Js.truthy country) then ret "Error: Country not found"
          else lift (formatCountryInfo c)
      | None => ret "Error: Country not found"
      end
  | search_indicators keyword =>
      indicators <- getIndicators ;;
      shown <- lift (filteredIndicators keyword indicators) ;;
      if (Z.of_nat (List.length shown) =? 0) then ret "No related indicators found"
      else
        lines <- lift (Js.map_r indicatorLine shown) ;;
        ret (JsString.join "\n" lines)
  | get_economic_data countryCode indicator years
  | get_social_data countryCode indicator years
  | get_education_data countryCode indicator years
  | get_health_data countryCode indicator years =>
      handleIndicatorData countryCode indicator (years_or_default years)
  end.

End Program.

(** ** Vocabulary of the properties *)

(** The request [getCompleteList] makes for page [p]. *)
Definition page_request (ep : string) (perPage : Z) (p : Z) : request :=
  mkRequest ep (Some p) perPage.

(** [pages_from p n] is [p, p+1, ..., p+n-1]. *)
Fixpoint pages_from (p : Z) (n : nat) : list Z :=
  match n with
  | O => []
  | S n' => p :: pages_from (p + 1) n'
  end.

(** The payload (index 1) of an exchange whose normalised response is an
    envelope, that is an array of at least two elements. *)
Definition envelope_payload (o : axios_outcome) : option json :=
  match normalize o with
  | JArr (_ :: pageData :: _) => Some pageData
  | _ => None
  end.

Fixpoint payloads (served : list (request * axios_outcome)) : list json :=
  match served with
  | [] => []
  | (_, o) :: rest =>
      match envelope_payload o with
      | Some p => p :: payloads rest
      | None => payloads rest
      end
  end.

(** The exchanges [served] are what [upstream] answers, one after the
    other, after the history [log]. *)
Fixpoint served_by
    (upstream : list (request * axios_outcome) -> request -> axios_outcome)
    (log served : list (request * axios_outcome)) : Prop :=
  match served with
  | [] => True
  | (r, o) :: rest =>
      o = upstream log r /\ served_by upstream (log ++ [(r, o)]) rest
  end.

(** Every envelope the upstream serves for the endpoint [ep] declares
    [N] total pages. *)
Definition declares_pages
    (upstream : list (request * axios_outcome) -> request -> axios_outcome)
    (ep : string) (N : Z) : Prop :=
  forall log req meta pageData rest,
    endpoint req = ep ->
    normalize (upstream log req) = JArr (meta :: pageData :: rest) ->
    Js.prop "pages" (Some meta) = Ok (Some (JNum N)).


(** ... and the value of that field is truthy. *)
Definition carries_truthy_message (firstItem : json) : Prop :=
  exists m, Js.prop "message" (Some firstItem) = Ok (Some m)
            /\ Js.truthy (Some m) = true.

(** [country.region.value] and [country.id.length]. *)
Definition region_value (country : json) : result value :=
  rbind (Js.prop "region" (Some country)) (Js.prop "value").

Definition id_length (country : json) : result value :=
  rbind (Js.prop "id" (Some country)) (Js.prop "length").

(** A record the filter of [getCountries] retains. *)
Definition retained (country : json) : Prop :=
  (exists v, region_value country = Ok v /\ v <> Some (JStr "Aggregates"))
  /\ id_length country = Ok (Some (JNum 3))
  /\ (forall s, Js.prop "id" (Some country) = Ok (Some (JStr s)) ->
                String.length s = 3%nat).

(** The countries cache holds only records that pass the filter. *)
Definition cache_real (w : world) : Prop :=
  Forall (fun c => real_country c = Ok true) (COUNTRIES_CACHE w).

(** Computations that leave the countries cache as it is. *)
Definition keeps_countries {A} (m : M A) : Prop :=
  forall w, COUNTRIES_CACHE (snd (m w)) = COUNTRIES_CACHE w.

(** Computations that never shorten the record of the traffic. *)
Definition grows {A} (m : M A) : Prop :=
  forall w, (List.length (traffic w) <= List.length (traffic (snd (m w))))%nat.

(** The four indicator-category tools. *)
Definition indicator_tools : list (string -> string -> option Z -> tool_call) :=
  [get_economic_data; get_social_data; get_education_data; get_health_data].

(** Equality of two codes up to the case of their letters. *)
Definition eq_nocase (a b : string) : Prop :=
  JsString.toUpperCase a = JsString.toUpperCase b.

(** A code written in upper case, as the upstream writes them. *)
Definition upper_case (s : string) : Prop := JsString.toUpperCase s = s.

(** The record has [stored] as its 2-letter code or as its 3-letter
    identifier. *)
Definition carries (c : json) (stored : string) : Prop :=
  Js.prop "iso2Code" (Some c) = Ok (Some (JStr stored))
  \/ Js.prop "id" (Some c) = Ok (Some (JStr stored)).

(** [t] occurs in [s]. *)
Definition substring (t s : string) : Prop :=
  exists pre post, s = pre ++ t ++ post.

(** [s] is made of white space only (the empty string included). *)
Definition blank (s : string) : Prop :=
  exists l,
    Forall (fun w => In w JsString.white_space) l /\ s = String.concat "" l.

(** An ASCII character other than white space. *)
Definition visible (c : ascii) : bool :=
  (nat_of_ascii c <? 128)%nat && negb (JsString.white (String c "")).

Fixpoint no_visible (s : string) : bool :=
  match s with
  | EmptyString => true
  | String c r => negb (visible c) && no_visible r
  end.

(** A string of ASCII characters. *)
Fixpoint ascii_only (s : string) : bool :=
  match s with
  | EmptyString => true
  | String c r => (nat_of_ascii c <? 128)%nat && ascii_only r
  end.

(** The seven values a card shows, as far as they can be read. *)
Definition card_values (c : json) : list (result value) :=
  [ Js.prop "name" (Some c); Js.prop "iso2Code" (Some c);
    rbind (Js.prop "region" (Some c)) (Js.prop "value");
    rbind (Js.prop "incomeLevel" (Some c)) (Js.prop "value");
    Js.prop "capitalCity" (Some c); Js.prop "latitude" (Some c);
    Js.prop "longitude" (Some c) ].



(** The boolean a throwing predicate yields, [false] when it throws. *)
Definition holds (p : json -> result bool) (x : json) : bool :=
  match p x with
  | Ok b => b
  | Throw => false
  end.

(** [country.incomeLevel.value]. *)
Definition income_value (country : json) : result value :=
  rbind (Js.prop "incomeLevel" (Some country)) (Js.prop "value").

(** The filter argument [arg] is given, with the text [s]. *)
Definition applies (arg : option string) (s : string) : Prop :=
  arg = Some s /\ filter_given arg = true.

(** A record passes the filter that [arg] asks for, if any. *)
Definition passes (arg : option string) (test : string -> json -> result bool)
    (c : json) : bool :=
  match arg with
  | Some s => if filter_given arg then holds (test s) c else true
  | None => true
  end.

Section Server.

Variable upstream : list (request * axios_outcome) -> request -> axios_outcome.
Variable ToNumber : json -> option Z.
Variable toLocaleString : json -> string.

(** The worlds the running server can be in: [main] preloads the two
    collections, then tools are called one after the other. *)
Inductive reachable : world -> Prop :=
| reach_start : reachable initial_world
| reach_countries : forall w,
    reachable w -> reachable (snd (getCountries upstream ToNumber w))
| reach_indicators : forall w,
    reachable w -> reachable (snd (getIndicators upstream ToNumber w))
| reach_tool : forall w t,
    reachable w ->
    reachable (snd (call_tool upstream ToNumber toLocaleString t w)).

End Server.

(** ** Concrete upstreams and records *)

Module Sample.

Definition NaN_for_all : json -> option Z := fun _ => None.

Definition plain_locale : json -> string := Js.to_string_json.

Definition meta (pages : Z) : json :=
  JObj [("page", JNum 1); ("pages", JNum pages);
        ("per_page", JNum 100); ("total", JNum 3)].

Definition country (id iso2Code name region income : string) : json :=
  JObj [("id", JStr id); ("iso2Code", JStr iso2Code); ("name", JStr name);
        ("region", JObj [("id", JStr "R"); ("value", JStr region)]);
        ("incomeLevel", JObj [("id", JStr "I"); ("value", JStr income)]);
        ("capitalCity", JStr "C"); ("longitude", JStr "0");
        ("latitude", JStr "0")].

Definition china : json :=
  country "CHN" "CN" "China" "East Asia & Pacific" "Upper middle income".
Definition world_aggregate : json :=
  country "WLD" "1W" "World" "Aggregates" "Aggregates".
Definition usa : json :=
  country "USA" "US" "United States" "North America" "High income".

Definition point (date : string) (v : json) : json :=
  JObj [("date", JStr date); ("value", v); ("unit", JStr "")].

(** Two pages of countries; observations for any other endpoint. *)
Definition two_pages : list (request * axios_outcome) -> request -> axios_outcome :=
  fun _ r =>
    if String.eqb (endpoint r) "countries" then
      match page r with
      | Some 1 => Resolved (JArr [meta 2; JArr [china; world_aggregate]])
      | Some 2 => Resolved (JArr [meta 2; JArr [usa]])
      | _ => Rejected
      end
    else
      Resolved (JArr [meta 1;
                      JArr [point "2023" (JNum 5); point "2022" JNull;
                            point "2021" (JNum 3)]]).

(** An upstream with nothing to list: zero pages, no records. *)
Definition zero_pages : list (request * axios_outcome) -> request -> axios_outcome :=
  fun _ _ => Resolved (JArr [meta 0; JArr []]).

(** An upstream that is down. *)
Definition down : list (request * axios_outcome) -> request -> axios_outcome :=
  fun _ _ => Rejected.


Definition answers (body : json)
  : list (request * axios_outcome) -> request -> axios_outcome :=
  fun _ _ => Resolved body.

(** A record whose codes are written in lower case. *)
Definition lower_coded : json :=
  country "abc" "ab" "Lower" "Region" "Income".

(** A single page of countries holding that record. *)
Definition lower_page : json := JArr [meta 1; JArr [lower_coded]].

(** A second record under the codes of [usa], and a single page of
    countries holding both. *)
Definition usa_twin : json :=
  country "USA" "US" "United States (second record)" "North America"
    "High income".
Definition twins_page : json := JArr [meta 1; JArr [usa; usa_twin]].

End Sample.

(** ** The rest of the program: start-up and the tool configurations *)

(** Lines 495-496: what the main action awaits before it connects the
    transport. *)
Definition preload
    (upstream : list (request * axios_outcome) -> request -> axios_outcome)
    (ToNumber : json -> option Z) : M unit :=
  _ <- getCountries upstream ToNumber ;;
  _ <- getIndicators upstream ToNumber ;;
  ret tt.

(** Lines 446-471: the name of each category tool and the keys its
    description advertises. *)
Definition toolConfigs : list (string * list string) :=
  [ ("get-economic-data",
     ["GDP"; "GDP_GROWTH"; "GDP_PER_CAPITA"; "GNI"; "GNI_PER_CAPITA";
      "EXPORTS_GDP"; "FDI_NET"; "INFLATION"; "UNEMPLOYMENT"]);
    ("get-social-data",
     ["POPULATION"; "LIFE_EXPECTANCY"; "BIRTH_RATE"; "DEATH_RATE";
      "INTERNET_USERS"]);
    ("get-education-data",
     ["LITERACY_RATE"; "SCHOOL_ENROLLMENT"; "SCHOOL_COMPLETION";
      "TEACHERS_PRIMARY"; "EDUCATION_EXPENDITURE"]);
    ("get-health-data",
     ["HEALTH_EXPENDITURE"; "PHYSICIANS"; "HOSPITAL_BEDS"; "IMMUNIZATION";
      "HIV_PREVALENCE"; "MALNUTRITION"; "TUBERCULOSIS"]) ].

(** ** Further vocabulary *)

(** Every response for the endpoint [ep] is an envelope whose metadata
    has no [pages] field. *)
Definition lacks_pages
    (upstream : list (request * axios_outcome) -> request -> axios_outcome)
    (ep : string) : Prop :=
  forall log req,
    endpoint req = ep ->
    exists meta pageData rest,
      normalize (upstream log req) = JArr (meta :: pageData :: rest)
      /\ Js.prop "pages" (Some meta) = Ok None.

(** A computation that makes at most [n] requests and removes none
    from the record of the traffic. *)
Definition spends {A} (n : nat) (m : M A) : Prop :=
  forall w,
    (List.length (traffic w) <= List.length (traffic (snd (m w)))
     /\ List.length (traffic (snd (m w))) <= List.length (traffic w) + n)%nat.

(** The most requests one call of a tool can make. *)
Definition request_budget (t : tool_call) : nat :=
  match t with
  | get_countries _ _ => 5
  | get_country_info _ => 5
  | search_indicators _ => 10
  | _ => 6
  end.

(** The most requests one call of a tool makes once both collections
    are cached. *)
Definition warm_budget (t : tool_call) : nat :=
  match t with
  | get_countries _ _ => 0
  | get_country_info _ => 0
  | search_indicators _ => 0
  | _ => 1
  end.

(** [c.iso2Code] or [c.id] is the string [code]. *)
Definition carries_code (code : string) (c : json) : Prop :=
  Js.prop "iso2Code" (Some c) = Ok (Some (JStr code))
  \/ Js.prop "id" (Some c) = Ok (Some (JStr code)).

Module Fixture.

(** A no-break space, U+00A0. *)
Definition nbsp : string := JsString.bytes [194; 160]%nat.

(** An envelope whose metadata says nothing about the number of pages. *)
Definition bare_envelope : json :=
  JArr [JObj [("page", JNum 1)]; JArr [Sample.china]].

(** A page whose metadata is [null]. *)
Definition null_metadata : json := JArr [JNull; JArr [Sample.usa]].

(** A page of countries with a [null] record in it. *)
Definition null_record_page : json :=
  JArr [Sample.meta 1; JArr [Sample.china; JNull]].

(** A page of countries holding aggregates only. *)
Definition aggregates_page : json :=
  JArr [Sample.meta 1; JArr [Sample.world_aggregate]].

(** A retained record without an income level. *)
Definition no_income : json :=
  JObj [("id", JStr "XKX"); ("iso2Code", JStr "XK"); ("name", JStr "Kosovo");
        ("region", JObj [("value", JStr "Europe & Central Asia")])].


Definition indicator (id name : string) : json :=
  JObj [("id", JStr id); ("name", JStr name); ("unit", JStr "")].

Definition gdp : json := indicator "NY.GDP.MKTP.CD" "GDP (current US$)".
Definition population : json := indicator "SP.POP.TOTL" "Population, total".

(** The countries of [Sample.two_pages], and one page of indicators. *)
Definition both : list (request * axios_outcome) -> request -> axios_outcome :=
  fun log r =>
    if String.eqb (endpoint r) "indicators" then
      Resolved (JArr [Sample.meta 1; JArr [gdp; population]])
    else Sample.two_pages log r.

End Fixture.

(** * Properties *)

Local Open Scope list_scope.

(** ** The page aggregator *)

Section AggregatorFacts.

Variable upstream : list (request * axios_outcome) -> request -> axios_outcome.
Variable ToNumber : json -> option Z.

Lemma pages_loop_while ep params maxPages perPage currentPage allData w :
  pages_loop upstream ToNumber ep params maxPages perPage currentPage allData w =
  if Z_le_dec currentPage maxPages then
    match page_step upstream ToNumber ep params perPage currentPage allData w with
    | (Continue, allData', w') =>
        pages_loop upstream ToNumber ep params maxPages perPage
          (currentPage + 1) allData' w'
    | (_, allData', w') => (allData', w')
    end
  else (allData, w).
Proof.
  rewrite pages_loop_equation_1.
  destruct (Z_le_dec currentPage maxPages) as [Hle | Hgt]; simpl; [| reflexivity].
  destruct (page_step upstream ToNumber ep params perPage currentPage allData w)
    as [[[ | | ] allData'] w']; reflexivity.
Qed.

(** One turn of the loop makes exactly one request, for the current
    page, and appends at most the payload of what came back. *)
Lemma page_step_spec ep params perPage currentPage allData w :
  let r := page_request ep perPage currentPage in
  let o := upstream (traffic w) r in
  exists c,
    page_step upstream ToNumber ep params perPage currentPage allData w =
      (c, fold_left Js.concat (payloads [(r, o)]) allData,
       mkWorld (COUNTRIES_CACHE w) (INDICATORS_CACHE w) (traffic w ++ [(r, o)]))
    /\ (c = Continue -> envelope_payload o <> None)
    /\ (forall N, declares_pages upstream ep N -> c = Continue -> currentPage < N).
Proof.
  intros r o. unfold page_step, makeWorldBankRequest.
  cbn [qp_page qp_per_page payloads].
  fold (page_request ep perPage currentPage). fold r. fold o.
  unfold envelope_payload.
  destruct (normalize o) as [ | b | n | s | l | f ] eqn:Hn;
    try (eexists; split; [reflexivity | split; [discriminate | discriminate]]).
  destruct l as [ | paginationInfo [ | pageData rest]];
    try (eexists; split; [reflexivity | split; [discriminate | discriminate]]).
  destruct (Js.prop "pages" (Some paginationInfo)) as [pages | ] eqn:Hp.
  - destruct (ge_value ToNumber currentPage pages) eqn:Hge.
    + eexists; split; [reflexivity | split; discriminate].
    + eexists; split; [reflexivity | split; [discriminate |]].
      intros N HN _. unfold o, r in Hn.
      rewrite (HN _ (page_request ep perPage currentPage) _ _ _ eq_refl Hn) in Hp. inversion Hp; subst pages.
      cbn [ge_value] in Hge. apply Z.leb_gt in Hge. exact Hge.
  - eexists; split; [reflexivity | split; discriminate].
Qed.

Lemma payloads_cons e served :
  payloads (e :: served) = (payloads [e] ++ payloads served)%list.
Proof.
  destruct e as [r o]. cbn [payloads].
  destruct (envelope_payload o); reflexivity.
Qed.

Lemma world_eta w :
  mkWorld (COUNTRIES_CACHE w) (INDICATORS_CACHE w) (traffic w ++ [])%list = w.
Proof. destruct w; cbn. rewrite app_nil_r. reflexivity. Qed.

(** The loop, started at [currentPage], requests consecutive pages
    from there on; what it returns is the accumulator extended with
    the payloads served, in that order. *)
Lemma pages_loop_spec ep params maxPages perPage :
  forall n currentPage allData w,
    Z.to_nat (maxPages + 1 - currentPage) = n ->
    exists served,
      pages_loop upstream ToNumber ep params maxPages perPage currentPage allData w
        = (fold_left Js.concat (payloads served) allData,
           mkWorld (COUNTRIES_CACHE w) (INDICATORS_CACHE w) (traffic w ++ served))
      /\ map fst served
           = map (page_request ep perPage) (pages_from currentPage (List.length served))
      /\ (List.length served <= n)%nat
      /\ (List.length served <= S (List.length (payloads served)))%nat
      /\ served_by upstream (traffic w) served
      /\ (currentPage <= maxPages -> (1 <= List.length served)%nat)
      /\ (forall N, declares_pages upstream ep N ->
                    Z.of_nat (List.length served) <= Z.max 1 (N + 1 - currentPage)).
Proof.
  induction n as [ | n IH]; intros currentPage allData w Hn;
    rewrite pages_loop_while;
    destruct (Z_le_dec currentPage maxPages) as [Hle | Hgt]; try lia.
  - exists []. rewrite world_eta. cbn. repeat split; intros; auto; lia.
  - destruct (page_step_spec ep params perPage currentPage allData w)
      as (c & Hstep & Henv & Hdecl).
    set (r := page_request ep perPage currentPage) in *.
    set (o := upstream (traffic w) r) in *.
    rewrite Hstep.
    assert (Hstop :
      exists served,
        (fold_left Js.concat (payloads [(r, o)]) allData,
         mkWorld (COUNTRIES_CACHE w) (INDICATORS_CACHE w) (traffic w ++ [(r, o)]))
        = (fold_left Js.concat (payloads served) allData,
           mkWorld (COUNTRIES_CACHE w) (INDICATORS_CACHE w) (traffic w ++ served))
        /\ map fst served
             = map (page_request ep perPage) (pages_from currentPage (List.length served))
        /\ (List.length served <= S n)%nat
        /\ (List.length served <= S (List.length (payloads served)))%nat
        /\ served_by upstream (traffic w) served
        /\ (currentPage <= maxPages -> (1 <= List.length served)%nat)
        /\ (forall N, declares_pages upstream ep N ->
                      Z.of_nat (List.length served) <= Z.max 1 (N + 1 - currentPage))).
    { exists [(r, o)]. cbn [List.length map fst pages_from served_by].
      repeat split; intros; auto; lia. }
    destruct c; try exact Hstop. clear Hstop.
    destruct (IH (currentPage + 1) (fold_left Js.concat (payloads [(r, o)]) allData)
                (mkWorld (COUNTRIES_CACHE w) (INDICATORS_CACHE w)
                   (traffic w ++ [(r, o)])))
      as (served & Hloop & Hreq & Hlen & Hpay & Hby & _ & HN); [lia |].
    exists ((r, o) :: served). rewrite Hloop. cbn [COUNTRIES_CACHE INDICATORS_CACHE traffic].
    rewrite (payloads_cons (r, o) served), fold_left_app, <- app_assoc.
    cbn [app List.length map fst pages_from served_by].
    rewrite Hreq.
    assert (Hone : List.length (payloads [(r, o)]) = 1%nat).
    { cbn [payloads]. specialize (Henv eq_refl).
      destruct (envelope_payload o); [reflexivity | congruence]. }
    rewrite length_app, Hone.
    repeat split; auto; try lia.
    intros N Hd. specialize (HN N Hd). specialize (Hdecl N Hd eq_refl). lia.
Qed.

Lemma concat_arrays arrays : forall acc,
  fold_left Js.concat (map JArr arrays) acc = acc ++ List.concat arrays.
Proof.
  induction arrays as [ | a arrays IH]; intros acc; cbn.
  - rewrite app_nil_r. reflexivity.
  - rewrite IH, app_assoc. reflexivity.
Qed.

Lemma requests_issued_app {A} (m : M A) w r cc ic served :
  m w = (r, mkWorld cc ic (traffic w ++ served)) ->
  requests_issued m w = List.length served.
Proof.
  intros H. unfold requests_issued. rewrite H. cbn.
  rewrite length_app. lia.
Qed.

Lemma getCompleteList_spec ep params maxPages perPage w :
  exists served,
    getCompleteList upstream ToNumber ep params maxPages perPage w
      = (Ok (fold_left Js.concat (payloads served) []),
         mkWorld (COUNTRIES_CACHE w) (INDICATORS_CACHE w) (traffic w ++ served))
    /\ map fst served
         = map (page_request ep perPage) (pages_from 1 (List.length served))
    /\ (Z.of_nat (List.length served) <= Z.max 0 maxPages)
    /\ (List.length served <= S (List.length (payloads served)))%nat
    /\ served_by upstream (traffic w) served
    /\ (1 <= maxPages -> (1 <= List.length served)%nat)
    /\ (forall N, declares_pages upstream ep N ->
                  Z.of_nat (List.length served) <= Z.max 1 N).
Proof.
  destruct (pages_loop_spec ep params maxPages perPage _ 1 [] w eq_refl)
    as (served & Hloop & Hreq & Hlen & Hpay & Hby & Hone & HN).
  exists served. unfold getCompleteList. rewrite Hloop.
  repeat split; auto; try lia.
  intros N Hd. specialize (HN N Hd). lia.
Qed.

End AggregatorFacts.

Lemma two_pages_declares : declares_pages Sample.two_pages "countries" 2.
Proof.
  intros log req meta pageData rest Hep. unfold Sample.two_pages.
  rewrite Hep. cbn [String.eqb Ascii.eqb Bool.eqb].
  destruct (String.eqb "countries" "countries") eqn:E; [| discriminate E].
  - destruct (page req) as [[ | [ p | [ p | p | ] | ] | p ] | ]; cbn;
      intros H; inversion H; reflexivity.
Qed.

(** C1 (as amended).  Whatever the upstream serves, [getCompleteList]
    requests pages 1, 2, 3, ... in ascending order and returns the
    payloads (index 1) of the envelopes it was served, concatenated in
    that order; only the last exchange can fail to be an envelope.
    Page 1 is requested whenever [maxPages] is at least 1, since the
    total is only read from its metadata, and never more than
    [maxPages] requests are issued.  When every envelope declares [N]
    total pages, at most [min (max N 1) maxPages] requests are issued
    (none when [maxPages] is negative). *)
Theorem getCompleteList_concatenates_pages :
  forall upstream ToNumber ep params maxPages perPage w,
    exists served,
      getCompleteList upstream ToNumber ep params maxPages perPage w
        = (Ok (fold_left Js.concat (payloads served) []),
           mkWorld (COUNTRIES_CACHE w) (INDICATORS_CACHE w) (traffic w ++ served))
      /\ map fst served
           = map (page_request ep perPage) (pages_from 1 (List.length served))
      /\ served_by upstream (traffic w) served
      /\ (List.length served <= S (List.length (payloads served)))%nat
      /\ (forall arrays, payloads served = map JArr arrays ->
            fold_left Js.concat (payloads served) [] = List.concat arrays)
      /\ requests_issued
           (getCompleteList upstream ToNumber ep params maxPages perPage) w
           = List.length served
      /\ (1 <= maxPages -> (1 <= List.length served)%nat)
      /\ Z.of_nat (List.length served) <= Z.max 0 maxPages
      /\ (forall N, declares_pages upstream ep N ->
            Z.of_nat (List.length served)
            <= Z.min (Z.max N 1) (Z.max 0 maxPages)).
Proof.
  intros upstream ToNumber ep params maxPages perPage w.
  destruct (getCompleteList_spec upstream ToNumber ep params maxPages perPage w)
    as (served & Hrun & Hreq & Hlen & Hpay & Hby & Hone & HN).
  exists served. repeat split; auto.
  - intros arrays Harr. rewrite Harr. apply concat_arrays.
  - eapply requests_issued_app. exact Hrun.
  - intros N Hdecl. specialize (HN N Hdecl). lia.
Qed.

Lemma getCompleteList_concatenates_pages_witness :
  exists served,
    fst (getCompleteList Sample.two_pages Sample.NaN_for_all "countries" no_params
           5 100 initial_world)
      = Ok (fold_left Js.concat (payloads served) [])
    /\ requests_issued
         (getCompleteList Sample.two_pages Sample.NaN_for_all "countries"
            no_params 5 100) initial_world
       = List.length served
    /\ (1 <= List.length served)%nat
    /\ Z.of_nat (List.length served) <= 2.
Proof.
  destruct (getCompleteList_concatenates_pages Sample.two_pages Sample.NaN_for_all
              "countries" no_params 5 100 initial_world)
    as (served & Hrun & _ & _ & _ & _ & Hreq & Hone & _ & HN).
  exists served. rewrite Hrun. split; [reflexivity |].
  split; [exact Hreq |]. split; [apply Hone; lia |].
  specialize (HN 2 two_pages_declares). lia.
Defined.

Lemma zero_pages_declares : declares_pages Sample.zero_pages "countries" 0.
Proof.
  intros log req meta pageData rest _. cbn. intros H; inversion H. reflexivity.
Qed.

(** C1 (as stated) fails when the declared total is 0: page 1 has been
    requested by the time the metadata is read. *)
Lemma getCompleteList_zero_pages_one_request :
  declares_pages Sample.zero_pages "countries" 0
  /\ requests_issued
       (getCompleteList Sample.zero_pages Sample.NaN_for_all "countries" no_params
          20 100) initial_world = 1%nat
  /\ ~ (Z.of_nat
          (requests_issued
             (getCompleteList Sample.zero_pages Sample.NaN_for_all "countries"
                no_params 20 100) initial_world)
        <= Z.min 0 20).
Proof.
  split; [exact zero_pages_declares |].
  split; [vm_compute; reflexivity |].
  vm_compute. intros H. apply H. reflexivity.
Qed.


(** ** Arrays *)

Lemma filter_spec p : forall l r,
  Js.filter p l = Ok r ->
  r = List.filter (holds p) l /\ Forall (fun x => exists b, p x = Ok b) l.
Proof.
  induction l as [ | x l IH]; intros r H; cbn in H.
  - inversion H. split; [reflexivity | constructor].
  - unfold holds. cbn [List.filter].
    destruct (p x) as [b | ] eqn:Hp; cbn in H; [| discriminate].
    destruct (Js.filter p l) as [r' | ] eqn:Hf; cbn in H; [| discriminate].
    destruct (IH r' eq_refl) as [Hr Hall]. inversion H; subst.
    split; [| constructor; eauto].
    unfold holds. destruct b; reflexivity.
Qed.

(** ** The fetch primitive *)

Lemma makeWorldBankRequest_run upstream ep params w :
  let req := mkRequest ep (qp_page params)
               (match qp_per_page params with Some n => n | None => 50 end) in
  makeWorldBankRequest upstream ep params w
    = (Ok (normalize (upstream (traffic w) req)),
       mkWorld (COUNTRIES_CACHE w) (INDICATORS_CACHE w)
         (traffic w ++ [(req, upstream (traffic w) req)])).
Proof. reflexivity. Qed.

Lemma normalize_no_data body :
  body = JArr []
  \/ (exists firstItem rest,
        body = JArr (firstItem :: rest) /\ carries_truthy_message firstItem) ->
  normalize (Resolved body) = JNull.
Proof.
  intros [-> | (firstItem & rest & -> & m & Hm & Ht)]; [reflexivity |].
  cbn [normalize]. rewrite Hm, Ht.
  destruct firstItem; cbn in Hm; try discriminate; reflexivity.
Qed.




(** ** The observation query *)

Lemma has_value_holds p :
  holds has_value p = true ->
  exists v, Js.prop "value" (Some p) = Ok v /\ v <> Some JNull.
Proof.
  unfold holds, has_value.
  destruct (Js.prop "value" (Some p)) as [v | ]; cbn; [| discriminate].
  intros H. exists v. split; [reflexivity |].
  intros ->. discriminate.
Qed.

(** C4.  Whenever [getCountryData] returns a collection, none of its
    records has a [null] value, and the collection is the payload the
    upstream served with the records of [null] value removed, the
    others in the order served.  One request is made. *)
Theorem getCountryData_drops_null_values :
  forall upstream countryCode indicatorId years w points,
    fst (getCountryData upstream countryCode indicatorId years w) = Ok points ->
    (forall p, In p points ->
       exists v, Js.prop "value" (Some p) = Ok v /\ v <> Some JNull)
    /\ (exists served,
          points = List.filter (holds has_value) served
          /\ (served = []
              \/ Js.index1
                   (normalize
                      (upstream (traffic w)
                         (mkRequest
                            ("country/" ++ countryCode ++ "/indicator/" ++ indicatorId)
                            None years)))
                 = Some (JArr served)))
    /\ requests_issued (getCountryData upstream countryCode indicatorId years) w
       = 1%nat.
Proof.
  intros upstream countryCode indicatorId years w points.
  unfold requests_issued, getCountryData, bind.
  rewrite makeWorldBankRequest_run. cbn [qp_page qp_per_page].
  set (response := normalize _).
  assert (Hempty : forall w',
    fst (@ret (list json) [] w') = Ok points ->
    (forall p, In p points ->
       exists v, Js.prop "value" (Some p) = Ok v /\ v <> Some JNull)
    /\ (exists served, points = List.filter (holds has_value) served
          /\ (served = [] \/ Js.index1 response = Some (JArr served)))).
  { cbn. intros _ H. inversion H. split; [intros p [] |].
    exists []. split; [reflexivity | left; reflexivity]. }
  destruct (Js.truthy (Some response)).
  - destruct (Js.index1 response) as [[ | | | | served | ] | ] eqn:Hidx;
      try (intros H; destruct (Hempty _ H) as [H1 H2]; split; [exact H1 |];
           split; [exact H2 |]; cbn; rewrite length_app; cbn; lia).
    unfold lift. cbn [fst snd traffic].
    intros H. apply filter_spec in H. destruct H as [-> _].
    split; [| split].
    + intros p Hin. apply filter_In in Hin. apply has_value_holds, Hin.
    + exists served. split; [reflexivity | right; reflexivity].
    + rewrite length_app. cbn. lia.
  - intros H; destruct (Hempty _ H) as [H1 H2]; split; [exact H1 |].
    split; [exact H2 |]. cbn. rewrite length_app. cbn. lia.
Qed.

Lemma getCountryData_drops_null_values_witness :
  fst (getCountryData Sample.two_pages "CHN" "NY.GDP.MKTP.CD" 10 initial_world)
    = Ok [Sample.point "2023" (JNum 5); Sample.point "2021" (JNum 3)]
  /\ (exists v,
        Js.prop "value" (Some (Sample.point "2021" (JNum 3))) = Ok v
        /\ v <> Some JNull).
Proof.
  assert (Hrun :
    fst (getCountryData Sample.two_pages "CHN" "NY.GDP.MKTP.CD" 10 initial_world)
      = Ok [Sample.point "2023" (JNum 5); Sample.point "2021" (JNum 3)])
    by (vm_compute; reflexivity).
  split; [exact Hrun |].
  destruct (getCountryData_drops_null_values Sample.two_pages "CHN"
              "NY.GDP.MKTP.CD" 10 initial_world _ Hrun) as [Hnull _].
  apply Hnull. right. left. reflexivity.
Defined.

(** ** The reference cache *)

Lemma nonempty_test {A} (l : list A) :
  (0 <? Z.of_nat (List.length l)) = match l with [] => false | _ => true end.
Proof. destruct l; reflexivity. Qed.

Lemma real_country_retained c : real_country c = Ok true -> retained c.
Proof.
  unfold real_country, retained, region_value, id_length. intros H.
  destruct (Js.prop "region" (Some c)) as [region | ];
    cbn [rbind] in *; [| discriminate H].
  destruct (Js.prop "value" region) as [v | ];
    cbn [rbind] in *; [| discriminate H].
  destruct (Js.strict_eq_str v "Aggregates") eqn:Hagg;
    cbn [negb] in H; [discriminate H |].
  destruct (Js.prop "id" (Some c)) as [id | ];
    cbn [rbind] in *; [| discriminate H].
  destruct (Js.prop "length" id) as [len | ] eqn:Hlen;
    cbn [rbind] in *; [| discriminate H].
  inversion H as [Hthree]. clear H.
  assert (Hnum : len = Some (JNum 3)).
  { destruct len as [[ | | n | | | ] | ]; cbn in Hthree; try discriminate.
    apply Z.eqb_eq in Hthree. subst. reflexivity. }
  subst len. split; [| split].
  - exists v. split; [reflexivity |]. intros ->. cbn in Hagg. discriminate.
  - reflexivity.
  - intros s Hs. inversion Hs; subst id. cbn in Hlen. inversion Hlen. lia.
Qed.

Section CacheFacts.

Variable upstream : list (request * axios_outcome) -> request -> axios_outcome.
Variable ToNumber : json -> option Z.
Variable toLocaleString : json -> string.

(** [getCountries] with a populated cache. *)
Lemma getCountries_cached w :
  COUNTRIES_CACHE w <> [] ->
  getCountries upstream ToNumber w = (Ok (COUNTRIES_CACHE w), w).
Proof.
  intros H. unfold getCountries. rewrite nonempty_test.
  destruct (COUNTRIES_CACHE w); [congruence | reflexivity].
Qed.

(** [getCountries] with an empty cache. *)
Lemma getCountries_fetch w :
  COUNTRIES_CACHE w = [] ->
  exists served,
    let allCountries := fold_left Js.concat (payloads served) [] in
    let w1 := mkWorld [] (INDICATORS_CACHE w) (traffic w ++ served) in
    (1 <= List.length served)%nat
    /\ getCompleteList upstream ToNumber "countries" no_params 5 100 w
       = (Ok allCountries, w1)
    /\ getCountries upstream ToNumber w
       = match allCountries with
         | [] => (Ok [], w1)
         | _ => match Js.filter real_country allCountries with
                | Ok kept => (Ok kept, set_COUNTRIES_CACHE kept w1)
                | Throw => (Throw, w1)
                end
         end.
Proof.
  intros Hc.
  destruct (getCompleteList_spec upstream ToNumber "countries" no_params 5 100 w)
    as (served & Hrun & _ & _ & _ & _ & Hone & _).
  exists served. cbn zeta. rewrite Hc in Hrun.
  split; [apply Hone; lia |]. split; [exact Hrun |].
  unfold getCountries, bind. rewrite nonempty_test, Hc, Hrun, nonempty_test.
  destruct (fold_left Js.concat (payloads served) []); [reflexivity |].
  unfold lift. destruct (Js.filter real_country (j :: l)); reflexivity.
Qed.

Lemma getCountries_real w :
  cache_real w ->
  cache_real (snd (getCountries upstream ToNumber w))
  /\ (forall countries,
        fst (getCountries upstream ToNumber w) = Ok countries ->
        Forall (fun c => real_country c = Ok true) countries).
Proof.
  intros Hw. destruct (COUNTRIES_CACHE w) as [ | c0 cs] eqn:Hc.
  - destruct (getCountries_fetch w Hc) as (served & _ & _ & Hrun).
    cbn zeta in Hrun. rewrite Hrun.
    destruct (fold_left Js.concat (payloads served) []) as [ | a all].
    + split; [constructor |]. cbn. intros ? H; inversion H; constructor.
    + destruct (Js.filter real_country (a :: all)) as [kept | ] eqn:Hf.
      * apply filter_spec in Hf. destruct Hf as [-> _].
        assert (Hk : Forall (fun c => real_country c = Ok true)
                       (List.filter (holds real_country) (a :: all))).
        { apply Forall_forall. intros c Hin. apply filter_In in Hin.
          destruct Hin as [_ Hh]. unfold holds in Hh.
          destruct (real_country c) as [[ | ] | ]; congruence. }
        split; [exact Hk |]. cbn. intros ? H; inversion H; subst; exact Hk.
      * split; [constructor |]. cbn. discriminate.
  - rewrite getCountries_cached by congruence.
    split; [exact Hw |]. cbn. intros ? H; inversion H; subst. exact Hw.
Qed.

Lemma keeps_ret {A} (a : A) : keeps_countries (ret a).
Proof. intros w. reflexivity. Qed.

Lemma keeps_lift {A} (r : result A) : keeps_countries (lift r).
Proof. intros w. reflexivity. Qed.

Lemma keeps_bind {A B} (m : M A) (f : A -> M B) :
  keeps_countries m -> (forall a, keeps_countries (f a)) ->
  keeps_countries (bind m f).
Proof.
  intros Hm Hf w. unfold bind. specialize (Hm w).
  destruct (m w) as [[a | ] w']; cbn in *; [rewrite Hf |]; exact Hm.
Qed.

Lemma keeps_getCompleteList ep params maxPages perPage :
  keeps_countries (getCompleteList upstream ToNumber ep params maxPages perPage).
Proof.
  intros w.
  destruct (getCompleteList_spec upstream ToNumber ep params maxPages perPage w)
    as (served & Hrun & _). rewrite Hrun. reflexivity.
Qed.

Lemma keeps_getIndicators : keeps_countries (getIndicators upstream ToNumber).
Proof.
  intros w. unfold getIndicators.
  destruct (0 <? Z.of_nat (List.length (INDICATORS_CACHE w))); [reflexivity |].
  apply keeps_bind; [apply keeps_getCompleteList |].
  intros all. destruct (0 <? Z.of_nat (List.length all)); [| apply keeps_ret].
  intros w'. reflexivity.
Qed.

Lemma keeps_getCountryData countryCode indicatorId years :
  keeps_countries (getCountryData upstream countryCode indicatorId years).
Proof.
  unfold getCountryData. apply keeps_bind; [intros w; reflexivity |].
  intros response. destruct (Js.truthy (Some response)); [| apply keeps_ret].
  destruct (Js.index1 response) as [[ | | | | | ] | ];
    first [apply keeps_ret | apply keeps_lift].
Qed.

(** A computation that runs [getCountries] and then only things that
    leave the cache alone keeps the cache made of retained records. *)
Lemma real_after_getCountries {A} (k : list json -> M A) w :
  (forall l, keeps_countries (k l)) ->
  cache_real w ->
  cache_real (snd (bind (getCountries upstream ToNumber) k w)).
Proof.
  intros Hk Hw. unfold bind.
  destruct (getCountries_real w Hw) as [Hreal _].
  destruct (getCountries upstream ToNumber w) as [[l | ] w1]; cbn in *.
  - unfold cache_real. rewrite Hk. exact Hreal.
  - exact Hreal.
Qed.

Lemma handleIndicatorData_real countryCode indicatorKey years w :
  cache_real w ->
  cache_real (snd (handleIndicatorData upstream ToNumber toLocaleString
                     countryCode indicatorKey years w)).
Proof.
  intros Hw. unfold handleIndicatorData.
  destruct (COMMON_INDICATORS_get indicatorKey) as [m | ]; [| exact Hw].
  destruct (negb (member_truthy (Some m))); [exact Hw |].
  apply real_after_getCountries; [| exact Hw].
  intros countries. apply keeps_bind; [apply keeps_lift |].
  intros country. destruct (negb (Js.truthy country)); [apply keeps_ret |].
  apply keeps_bind; [apply keeps_lift |]. intros id.
  apply keeps_bind; [apply keeps_lift |]. intros idText.
  apply keeps_bind; [apply keeps_getCountryData |]. intros data.
  apply keeps_bind; [apply keeps_lift |]. intros name.
  apply keeps_bind; [apply keeps_lift |]. intros nameText. apply keeps_lift.
Qed.

Lemma call_tool_real t w :
  cache_real w ->
  cache_real (snd (call_tool upstream ToNumber toLocaleString t w)).
Proof.
  intros Hw. destruct t; cbn [call_tool];
    try (apply handleIndicatorData_real; exact Hw).
  - apply real_after_getCountries; [| exact Hw]. intros countries.
    apply keeps_bind; [apply keeps_lift |]. intros shown.
    apply keeps_bind; [apply keeps_lift |]. intros lines. apply keeps_ret.
  - apply real_after_getCountries; [| exact Hw]. intros countries.
    apply keeps_bind; [apply keeps_lift |]. intros [c | ]; [| apply keeps_ret].
    destruct (negb (Js.truthy (Some c))); [apply keeps_ret | apply keeps_lift].
  - unfold cache_real.
    rewrite (keeps_bind (getIndicators upstream ToNumber)); [exact Hw | |].
    + apply keeps_getIndicators.
    + intros indicators. apply keeps_bind; [apply keeps_lift |]. intros shown.
      destruct (Z.of_nat (List.length shown) =? 0); [apply keeps_ret |].
      apply keeps_bind; [apply keeps_lift |]. intros lines. apply keeps_ret.
Qed.

(** The invariant of the countries cache. *)
Lemma reachable_real w :
  reachable upstream ToNumber toLocaleString w -> cache_real w.
Proof.
  induction 1 as [ | w Hr IH | w Hr IH | w t Hr IH ].
  - constructor.
  - apply getCountries_real, IH.
  - unfold cache_real. rewrite keeps_getIndicators. exact IH.
  - apply call_tool_real, IH.
Qed.

End CacheFacts.

(** C3.  In every state the server can reach, each record of the
    countries cache, and each record of a collection [getCountries]
    returns, has a region value other than ['Aggregates'] and an
    identifier of length 3. *)
Theorem getCountries_only_real_countries :
  forall upstream ToNumber toLocaleString w,
    reachable upstream ToNumber toLocaleString w ->
    Forall retained (COUNTRIES_CACHE w)
    /\ (forall countries,
          fst (getCountries upstream ToNumber w) = Ok countries ->
          Forall retained countries).
Proof.
  intros upstream ToNumber toLocaleString w Hr.
  apply reachable_real in Hr.
  split.
  - eapply Forall_impl; [| exact Hr]. apply real_country_retained.
  - intros countries Hc.
    eapply Forall_impl; [apply real_country_retained |].
    eapply getCountries_real; eassumption.
Qed.

Lemma getCountries_only_real_countries_witness :
  Forall retained
    (COUNTRIES_CACHE
       (snd (getCountries Sample.two_pages Sample.NaN_for_all initial_world))).
Proof.
  apply (getCountries_only_real_countries Sample.two_pages Sample.NaN_for_all
           Sample.plain_locale).
  apply reach_countries. apply reach_start.
Defined.

(** C6.  Once a call of [getCountries] has left a non-empty cache, the
    next call returns the same collection and makes no request.  When
    the cache is empty and the fetch yields nothing, the call returns
    an empty collection, the cache stays empty, and the next call makes
    a request again. *)
Theorem getCountries_caches_successes :
  forall upstream ToNumber w,
    (forall countries w1,
        getCountries upstream ToNumber w = (Ok countries, w1) ->
        COUNTRIES_CACHE w1 <> [] ->
        getCountries upstream ToNumber w1 = (Ok countries, w1)
        /\ requests_issued (getCountries upstream ToNumber) w1 = 0%nat)
    /\ (COUNTRIES_CACHE w = [] ->
        fst (getCompleteList upstream ToNumber "countries" no_params 5 100 w)
          = Ok [] ->
        fst (getCountries upstream ToNumber w) = Ok []
        /\ COUNTRIES_CACHE (snd (getCountries upstream ToNumber w)) = []
        /\ (1 <= requests_issued (getCountries upstream ToNumber)
                   (snd (getCountries upstream ToNumber w)))%nat).
Proof.
  intros upstream ToNumber w. split.
  - intros countries w1 Hrun Hne.
    assert (Hsame : COUNTRIES_CACHE w1 = countries).
    { destruct (COUNTRIES_CACHE w) as [ | c0 cs] eqn:Hc.
      - destruct (getCountries_fetch upstream ToNumber w Hc)
          as (served & _ & _ & Hf). cbn zeta in Hf. rewrite Hf in Hrun.
        destruct (fold_left Js.concat (payloads served) []) as [ | a all].
        + inversion Hrun; subst. cbn in Hne. congruence.
        + destruct (Js.filter real_country (a :: all));
            inversion Hrun; subst; reflexivity.
      - rewrite getCountries_cached in Hrun by congruence.
        inversion Hrun; subst. reflexivity. }
    unfold requests_issued.
    rewrite (getCountries_cached upstream ToNumber w1 Hne), Hsame. cbn.
    split; [reflexivity | lia].
  - intros Hc Hnothing.
    destruct (getCountries_fetch upstream ToNumber w Hc)
      as (served & _ & Hlist & Hf). cbn zeta in Hlist, Hf.
    rewrite Hlist in Hnothing. cbn [fst] in Hnothing. injection Hnothing as Hempty.
    rewrite Hempty in Hf. rewrite Hf. cbn [fst snd COUNTRIES_CACHE].
    split; [reflexivity |]. split; [reflexivity |].
    set (w1 := mkWorld [] (INDICATORS_CACHE w) (traffic w ++ served)).
    destruct (getCountries_fetch upstream ToNumber w1 eq_refl)
      as (served' & Hone & _ & Hf'). cbn zeta in Hf'.
    unfold requests_issued. rewrite Hf'.
    destruct (fold_left Js.concat (payloads served') []) as [ | a all];
      [| destruct (Js.filter real_country (a :: all))];
      cbn; rewrite length_app; lia.
Qed.

Lemma getCountries_caches_successes_witness :
  (let w1 := snd (getCountries Sample.two_pages Sample.NaN_for_all initial_world) in
   getCountries Sample.two_pages Sample.NaN_for_all w1
   = (Ok [Sample.china; Sample.usa], w1))
  /\ (let w1 := snd (getCountries Sample.down Sample.NaN_for_all initial_world) in
      COUNTRIES_CACHE w1 = []
      /\ (1 <= requests_issued (getCountries Sample.down Sample.NaN_for_all) w1)%nat).
Proof.
  split.
  - cbn zeta.
    apply (getCountries_caches_successes Sample.two_pages Sample.NaN_for_all
             initial_world).
    + vm_compute. reflexivity.
    + vm_compute. discriminate.
  - cbn zeta.
    apply (getCountries_caches_successes Sample.down Sample.NaN_for_all
             initial_world); vm_compute; reflexivity.
Defined.

(** ** The country lookup *)

Lemma find_spec p : forall l x,
  Js.find p l = Ok (Some x) ->
  exists pre post,
    l = pre ++ x :: post /\ p x = Ok true
    /\ (forall y, In y pre -> p y = Ok false).
Proof.
  induction l as [ | a l IH]; intros x H; cbn in H; [discriminate |].
  destruct (p a) as [[ | ] | ] eqn:Hp; cbn in H; [| | discriminate].
  - inversion H; subst. exists [], l. repeat split; auto. intros y [].
  - destruct (IH x H) as (pre & post & -> & Hx & Hpre).
    exists (a :: pre), post. repeat split; auto.
    intros y [<- | Hin]; auto.
Qed.

Lemma find_some p : forall l c,
  Forall (fun x => exists b, p x = Ok b) l ->
  In c l -> p c = Ok true ->
  exists x, Js.find p l = Ok (Some x).
Proof.
  induction l as [ | a l IH]; intros c Hall Hin Hc; [destruct Hin |].
  inversion Hall as [ | ? ? [b Hb] Hl]; subst. cbn. rewrite Hb. cbn.
  destruct b; [eauto |].
  destruct Hin as [-> | Hin]; [congruence |]. eauto.
Qed.

(** A record that passed the filter is not [null], so the lookup
    predicate does not throw on it. *)
Lemma real_country_readable code c :
  real_country c = Ok true -> exists b, code_matches code c = Ok b.
Proof.
  unfold real_country, code_matches. intros H.
  destruct c; cbn in H; try discriminate; cbn;
    repeat match goal with
           | |- context [if ?b then _ else _] => destruct b
           end; eauto.
Qed.

Lemma code_matches_true code c :
  code_matches code c = Ok true ->
  Js.prop "iso2Code" (Some c) = Ok (Some (JStr (JsString.toUpperCase code)))
  \/ Js.prop "id" (Some c) = Ok (Some (JStr (JsString.toUpperCase code))).
Proof.
  unfold code_matches. intros H.
  destruct (Js.prop "iso2Code" (Some c)) as [iso | ] eqn:Hiso;
    cbn [rbind] in H; [| discriminate H].
  destruct (Js.strict_eq_str iso (JsString.toUpperCase code)) eqn:Heq.
  - left. destruct iso as [[ | | | s | | ] | ]; cbn in Heq; try discriminate.
    apply String.eqb_eq in Heq. subst. reflexivity.
  - right. destruct (Js.prop "id" (Some c)) as [id | ] eqn:Hid;
      cbn [rbind] in H; [| discriminate H].
    injection H as H.
    destruct id as [[ | | | s | | ] | ]; cbn in H; try discriminate.
    apply String.eqb_eq in H. subst. reflexivity.
Qed.

Lemma code_matches_stored code c stored :
  (exists b, code_matches code c = Ok b) ->
  Js.prop "iso2Code" (Some c) = Ok (Some (JStr stored))
  \/ Js.prop "id" (Some c) = Ok (Some (JStr stored)) ->
  JsString.toUpperCase code = stored ->
  code_matches code c = Ok true.
Proof.
  intros [b Hb] Hs Hup. unfold code_matches in *. rewrite Hup in *.
  destruct (Js.prop "iso2Code" (Some c)) as [iso | ] eqn:Hiso;
    cbn [rbind] in *; [| discriminate Hb].
  destruct (Js.strict_eq_str iso stored) eqn:Heq; [reflexivity |].
  destruct Hs as [Hs | Hs].
  - injection Hs as ->. cbn in Heq. rewrite String.eqb_refl in Heq. discriminate.
  - rewrite Hs. cbn. rewrite String.eqb_refl. reflexivity.
Qed.

(** C5 (as amended).  For a record of the countries cache whose
    2-letter code or 3-letter identifier is written in upper case, and
    a user-supplied code equal to it up to letter case, the lookup
    returns exactly one record of the cache: the first one in cache
    order that carries that code, no record standing before it in the
    cache carrying it.  That is the given record when no record before
    it carries the code, in particular when no other record matches. *)
Theorem find_country_ignores_case :
  forall upstream ToNumber toLocaleString w c code stored,
    reachable upstream ToNumber toLocaleString w ->
    In c (COUNTRIES_CACHE w) ->
    carries c stored ->
    upper_case stored ->
    eq_nocase code stored ->
    exists pre found post,
      COUNTRIES_CACHE w = pre ++ found :: post
      /\ find_country (COUNTRIES_CACHE w) code = Ok (Some found)
      /\ carries found stored
      /\ (forall earlier, In earlier pre -> ~ carries earlier stored)
      /\ (forall before after,
            COUNTRIES_CACHE w = before ++ c :: after ->
            (forall earlier, In earlier before -> ~ carries earlier stored) ->
            found = c)
      /\ ((forall other, In other (COUNTRIES_CACHE w) ->
             code_matches code other = Ok true -> other = c) ->
          found = c).
Proof.
  intros upstream ToNumber toLocaleString w c code stored Hr Hin Hs Hup Heq.
  apply reachable_real in Hr. unfold cache_real in Hr.
  assert (Hcode : JsString.toUpperCase code = stored).
  { unfold eq_nocase, upper_case in *. congruence. }
  assert (Hread : Forall (fun x => exists b, code_matches code x = Ok b)
                    (COUNTRIES_CACHE w)).
  { eapply Forall_impl; [| exact Hr]. intros x. apply real_country_readable. }
  rewrite Forall_forall in Hread.
  assert (Hc : code_matches code c = Ok true).
  { apply (code_matches_stored code c stored); auto. }
  assert (Hread' : Forall (fun x => exists b, code_matches code x = Ok b)
                     (COUNTRIES_CACHE w)) by (apply Forall_forall, Hread).
  destruct (find_some _ _ c Hread' Hin Hc) as [found Hfound].
  destruct (find_spec _ _ _ Hfound) as (pre & post & Hl & Hm & Hpre).
  assert (Hfirst : forall earlier, In earlier pre -> ~ carries earlier stored).
  { intros earlier Hearlier Hcar.
    assert (Hin' : In earlier (COUNTRIES_CACHE w)).
    { rewrite Hl. apply in_or_app. left. exact Hearlier. }
    pose proof (code_matches_stored code earlier stored
                  (Hread earlier Hin') Hcar Hcode) as Htrue.
    rewrite (Hpre earlier Hearlier) in Htrue. discriminate Htrue. }
  assert (Hcar : carries found stored).
  { unfold carries. rewrite <- Hcode. apply code_matches_true, Hm. }
  exists pre, found, post. unfold find_country.
  split; [exact Hl |]. split; [exact Hfound |]. split; [exact Hcar |].
  split; [exact Hfirst |]. split.
  - intros before after Hl' Hbefore. rewrite Hl in Hl'. clear - Hl' Hbefore Hfirst Hcar Hs.
    revert before Hl' Hbefore.
    induction pre as [ | a pre IH]; intros before Hl' Hbefore.
    + destruct before as [ | b before]; cbn in Hl'.
      * injection Hl' as -> _. reflexivity.
      * injection Hl' as -> _. exfalso.
        apply (Hbefore b); [left; reflexivity | exact Hcar].
    + destruct before as [ | b before]; cbn in Hl'.
      * injection Hl' as -> _. exfalso.
        apply (Hfirst c); [left; reflexivity | exact Hs].
      * injection Hl' as -> Hl'. apply (IH (fun e He => Hfirst e (or_intror He)) before Hl').
        intros e He. apply Hbefore. right. exact He.
  - intros Huniq. apply Huniq; [| exact Hm].
    rewrite Hl. apply in_or_app. right. left. reflexivity.
Qed.

Lemma find_country_ignores_case_witness :
  find_country
    (COUNTRIES_CACHE
       (snd (getCountries (Sample.answers Sample.twins_page) Sample.NaN_for_all
               initial_world)))
    "us" = Ok (Some Sample.usa).
Proof.
  destruct (find_country_ignores_case (Sample.answers Sample.twins_page)
              Sample.NaN_for_all Sample.plain_locale
              (snd (getCountries (Sample.answers Sample.twins_page)
                      Sample.NaN_for_all initial_world))
              Sample.usa_twin "us" "US")
    as (pre & found & post & Hl & Hfound & Hcar & Hfirst & _).
  - apply reach_countries. apply reach_start.
  - vm_compute. right. left. reflexivity.
  - left. reflexivity.
  - reflexivity.
  - reflexivity.
  - rewrite Hfound. f_equal. f_equal.
    change (COUNTRIES_CACHE
              (snd (getCountries (Sample.answers Sample.twins_page)
                      Sample.NaN_for_all initial_world)))
      with [Sample.usa; Sample.usa_twin] in Hl.
    destruct pre as [ | a pre]; cbn [app] in Hl.
    + injection Hl as <- _. reflexivity.
    + injection Hl as <- _. exfalso.
      apply (Hfirst Sample.usa); [left; reflexivity | left; reflexivity].
Defined.

(** C5 (as stated) fails in two ways.  A record whose codes are stored
    in lower case is found under no spelling of them: only the code of
    the user is put in upper case.  And of two cached records under the
    same code, a lookup by the code of the second returns the first. *)
Lemma find_country_misses_the_record :
  (let w := snd (getCountries (Sample.answers Sample.lower_page)
                   Sample.NaN_for_all initial_world) in
   In Sample.lower_coded (COUNTRIES_CACHE w)
   /\ Js.prop "id" (Some Sample.lower_coded) = Ok (Some (JStr "abc"))
   /\ eq_nocase "ABC" "abc"
   /\ find_country (COUNTRIES_CACHE w) "ABC" = Ok None
   /\ find_country (COUNTRIES_CACHE w) "abc" = Ok None)
  /\ (let w := snd (getCountries (Sample.answers Sample.twins_page)
                      Sample.NaN_for_all initial_world) in
      In Sample.usa_twin (COUNTRIES_CACHE w)
      /\ Js.prop "iso2Code" (Some Sample.usa_twin) = Ok (Some (JStr "US"))
      /\ Js.prop "id" (Some Sample.usa_twin) = Ok (Some (JStr "USA"))
      /\ upper_case "US" /\ upper_case "USA"
      /\ eq_nocase "us" "US" /\ eq_nocase "usa" "USA"
      /\ find_country (COUNTRIES_CACHE w) "us" = Ok (Some Sample.usa)
      /\ find_country (COUNTRIES_CACHE w) "usa" = Ok (Some Sample.usa)
      /\ Sample.usa <> Sample.usa_twin).
Proof.
  split.
  - vm_compute. repeat split; auto.
  - vm_compute. repeat split; auto. discriminate.
Qed.

(** ** The indicator-data tools *)

Section ToolFacts.

Variable upstream : list (request * axios_outcome) -> request -> axios_outcome.
Variable ToNumber : json -> option Z.
Variable toLocaleString : json -> string.

Lemma grows_ret {A} (a : A) : grows (ret a).
Proof. intros w. cbn. lia. Qed.

Lemma grows_lift {A} (r : result A) : grows (lift r).
Proof. intros w. cbn. lia. Qed.

Lemma grows_bind {A B} (m : M A) (f : A -> M B) :
  grows m -> (forall a, grows (f a)) -> grows (bind m f).
Proof.
  intros Hm Hf w. unfold bind. specialize (Hm w).
  destruct (m w) as [[a | ] w']; cbn in *; [| exact Hm].
  specialize (Hf a w'). lia.
Qed.

Lemma grows_getCountryData countryCode indicatorId years :
  grows (getCountryData upstream countryCode indicatorId years).
Proof.
  unfold getCountryData. apply grows_bind.
  - intros w. cbn. rewrite length_app. lia.
  - intros response. destruct (Js.truthy (Some response)); [| apply grows_ret].
    destruct (Js.index1 response) as [[ | | | | | ] | ];
      first [apply grows_ret | apply grows_lift].
Qed.

(** What follows a first computation can only add requests. *)
Lemma requests_issued_bind {A B} (m : M A) (f : A -> M B) w :
  (forall a, grows (f a)) ->
  (requests_issued m w <= requests_issued (bind m f) w)%nat.
Proof.
  intros Hf. unfold requests_issued, bind.
  destruct (m w) as [[a | ] w']; cbn; [| lia].
  specialize (Hf a w'). lia.
Qed.

Lemma getCountries_requests w :
  COUNTRIES_CACHE w = [] ->
  (1 <= requests_issued (getCountries upstream ToNumber) w)%nat.
Proof.
  intros Hc.
  destruct (getCountries_fetch upstream ToNumber w Hc)
    as (served & Hone & _ & Hf). cbn zeta in Hf.
  unfold requests_issued. rewrite Hf.
  destruct (fold_left Js.concat (payloads served) []) as [ | a all];
    [| destruct (Js.filter real_country (a :: all))];
    cbn; rewrite length_app; lia.
Qed.

Lemma call_indicator_tool tool countryCode indicatorKey years :
  In tool indicator_tools ->
  call_tool upstream ToNumber toLocaleString (tool countryCode indicatorKey years)
  = handleIndicatorData upstream ToNumber toLocaleString
      countryCode indicatorKey (years_or_default years).
Proof.
  intros [<- | [<- | [<- | [<- | []]]]]; reflexivity.
Qed.

(** A key that is neither in the table nor inherited is rejected, and
    nothing else happens. *)
Lemma unknown_key_rejected tool countryCode indicatorKey years w :
  In tool indicator_tools ->
  COMMON_INDICATORS_get indicatorKey = None ->
  call_tool upstream ToNumber toLocaleString
    (tool countryCode indicatorKey years) w
  = (Ok "Error: Unsupported indicator type"%string, w).
Proof.
  intros Htool Hkey. rewrite call_indicator_tool by exact Htool.
  unfold handleIndicatorData. rewrite Hkey. reflexivity.
Qed.

(** An inherited key passes the guard, so the countries are resolved. *)
Lemma inherited_key_requests countryCode indicatorKey years w :
  COMMON_INDICATORS_get indicatorKey = Some (Inherited indicatorKey) ->
  COUNTRIES_CACHE w = [] ->
  (1 <= requests_issued
          (handleIndicatorData upstream ToNumber toLocaleString
             countryCode indicatorKey years) w)%nat.
Proof.
  intros Hkey Hc. unfold handleIndicatorData. rewrite Hkey.
  cbn [member_truthy negb].
  eapply Nat.le_trans; [apply getCountries_requests, Hc |].
  apply requests_issued_bind. intros countries.
  apply grows_bind; [apply grows_lift |]. intros country.
  destruct (negb (Js.truthy country)); [apply grows_ret |].
  apply grows_bind; [apply grows_lift |]. intros id.
  apply grows_bind; [apply grows_lift |]. intros idText.
  apply grows_bind; [apply grows_getCountryData |]. intros data.
  apply grows_bind; [apply grows_lift |]. intros name.
  apply grows_bind; [apply grows_lift |]. intros nameText. apply grows_lift.
Qed.

End ToolFacts.

Lemma table_ids_truthy indicatorKey id :
  assoc indicatorKey COMMON_INDICATORS = Some id ->
  member_truthy (COMMON_INDICATORS_get indicatorKey) = true.
Proof.
  intros H. unfold COMMON_INDICATORS_get. rewrite H.
  revert H. unfold COMMON_INDICATORS. cbn [assoc].
  repeat match goal with
         | |- context [String.eqb indicatorKey ?k] =>
             destruct (String.eqb indicatorKey k);
             [intros H; injection H as <-; reflexivity |]
         end.
  discriminate.
Qed.

(** C7, at the key ["constructor"]: it is not in the indicator table,
    yet each of the four tools lets it through the guard, resolves the
    countries over the network when the cache is empty, and answers
    with something other than the error text. *)
Theorem inherited_indicator_key_not_rejected :
  assoc "constructor" COMMON_INDICATORS = None
  /\ (forall upstream ToNumber toLocaleString tool countryCode years w,
        In tool indicator_tools ->
        COUNTRIES_CACHE w = [] ->
        (1 <= requests_issued
                (call_tool upstream ToNumber toLocaleString
                   (tool countryCode "constructor"%string years)) w)%nat)
  /\ fst (call_tool Sample.two_pages Sample.NaN_for_all Sample.plain_locale
            (get_economic_data "CN" "constructor" None) initial_world)
     <> Ok "Error: Unsupported indicator type"%string
  /\ map fst
       (traffic
          (snd (call_tool Sample.two_pages Sample.NaN_for_all Sample.plain_locale
                  (get_economic_data "CN" "constructor" None) initial_world)))
     = [ page_request "countries" 100 1; page_request "countries" 100 2;
         mkRequest "country/CHN/indicator/function Object() { [native code] }"
           None 10 ].
Proof.
  split; [reflexivity |]. split; [| split].
  - intros upstream ToNumber toLocaleString tool countryCode years w Htool Hc.
    rewrite call_indicator_tool by exact Htool.
    apply inherited_key_requests; [reflexivity | exact Hc].
  - vm_compute. discriminate.
  - vm_compute. reflexivity.
Qed.

(** C8 (as amended).  For a supported indicator key and a country code
    that matches no record of the resolved collection, each of the four
    tools answers ['Error: Country not found'] (no full stop) and does
    not throw; nothing is requested beyond resolving the countries. *)
Theorem unknown_country_reported :
  forall upstream ToNumber toLocaleString tool countryCode indicatorKey id years
         w countries w1,
    In tool indicator_tools ->
    assoc indicatorKey COMMON_INDICATORS = Some id ->
    getCountries upstream ToNumber w = (Ok countries, w1) ->
    find_country countries countryCode = Ok None ->
    call_tool upstream ToNumber toLocaleString
      (tool countryCode indicatorKey years) w
    = (Ok "Error: Country not found"%string, w1).
Proof.
  intros upstream ToNumber toLocaleString tool countryCode indicatorKey id years
    w countries w1 Htool Hkey Hget Hfind.
  rewrite call_indicator_tool by exact Htool.
  unfold handleIndicatorData.
  pose proof (table_ids_truthy indicatorKey id Hkey) as Ht.
  destruct (COMMON_INDICATORS_get indicatorKey) as [m | ]; [| discriminate Ht].
  rewrite Ht. cbn [negb]. unfold bind. rewrite Hget.
  unfold lift. rewrite Hfind. reflexivity.
Qed.

Lemma unknown_country_reported_witness :
  fst (call_tool Sample.two_pages Sample.NaN_for_all Sample.plain_locale
         (get_social_data "ZZ" "POPULATION" (Some 5)) initial_world)
  = Ok "Error: Country not found"%string.
Proof.
  rewrite (unknown_country_reported Sample.two_pages Sample.NaN_for_all
             Sample.plain_locale get_social_data "ZZ" "POPULATION" "SP.POP.TOTL"
             (Some 5) initial_world [Sample.china; Sample.usa]
             (snd (getCountries Sample.two_pages Sample.NaN_for_all initial_world))).
  - reflexivity.
  - right. left. reflexivity.
  - reflexivity.
  - vm_compute. reflexivity.
  - vm_compute. reflexivity.
Defined.

(** C8 (as stated) names a text that ends in a full stop; the text the
    tools answer has none. *)
Lemma unknown_country_text_has_no_full_stop :
  find_country
    (COUNTRIES_CACHE
       (snd (getCountries Sample.two_pages Sample.NaN_for_all initial_world)))
    "ZZ" = Ok None
  /\ fst (call_tool Sample.two_pages Sample.NaN_for_all Sample.plain_locale
            (get_economic_data "ZZ" "GDP" None) initial_world)
     = Ok "Error: Country not found"%string
  /\ fst (call_tool Sample.two_pages Sample.NaN_for_all Sample.plain_locale
            (get_economic_data "ZZ" "GDP" None) initial_world)
     <> Ok "Error: Country not found."%string.
Proof.
  split; [vm_compute; reflexivity |].
  split; [vm_compute; reflexivity |].
  vm_compute. discriminate.
Qed.

(** ** Substrings and white space *)

Lemma starts_with_spec : forall p s,
  JsString.starts_with p s = true <-> exists post, s = (p ++ post)%string.
Proof.
  induction p as [ | a p IH]; intros s; cbn.
  - split; [intros _; exists s; reflexivity | reflexivity].
  - destruct s as [ | b s].
    + split; [discriminate | intros [post H]; discriminate].
    + rewrite andb_true_iff, Ascii.eqb_eq, IH. split.
      * intros [-> [post ->]]. exists post. reflexivity.
      * intros [post H]. injection H as -> ->. split; eauto.
Qed.

Lemma includes_spec : forall s t,
  JsString.includes s t = true <-> substring t s.
Proof.
  unfold substring. intros s t. split.
  - induction s as [ | c s IH]; cbn; rewrite orb_true_iff, starts_with_spec.
    + intros [[post H] | H]; [| discriminate]. exists ""%string, post. exact H.
    + intros [[post H] | H]; [exists ""%string, post; exact H |].
      destruct (IH H) as (pre & post & ->).
      exists (String c pre), post. reflexivity.
  - intros (pre & post & ->). induction pre as [ | c pre IH].
    + assert (Hs : JsString.starts_with t (t ++ post)%string = true)
        by (apply starts_with_spec; eauto).
      cbn [append]. destruct (t ++ post)%string; cbn; rewrite Hs; reflexivity.
    + cbn. rewrite IH. apply orb_true_r.
Qed.

Lemma append_assoc_s (a b c : string) :
  ((a ++ b) ++ c)%string = (a ++ (b ++ c))%string.
Proof. induction a as [ | x a IH]; cbn; [| rewrite IH]; reflexivity. Qed.

Lemma append_nil_s (a : string) : (a ++ "")%string = a.
Proof. induction a as [ | x a IH]; cbn; [| rewrite IH]; reflexivity. Qed.

Lemma white_In w : JsString.white w = true <-> In w JsString.white_space.
Proof.
  unfold JsString.white. rewrite existsb_exists. split.
  - intros (x & Hin & Heq). apply String.eqb_eq in Heq. subst. exact Hin.
  - intros H. exists w. split; [exact H | apply String.eqb_refl].
Qed.

Lemma concat_cons_s w l :
  String.concat "" (w :: l) = (w ++ String.concat "" l)%string.
Proof.
  destruct l as [ | x l]; cbn [String.concat].
  - rewrite append_nil_s. reflexivity.
  - reflexivity.
Qed.

Lemma concat_app_s l1 l2 :
  String.concat "" (l1 ++ l2)
  = (String.concat "" l1 ++ String.concat "" l2)%string.
Proof.
  induction l1 as [ | w l1 IH]; [reflexivity |].
  cbn [app]. rewrite !concat_cons_s, IH, append_assoc_s. reflexivity.
Qed.

Lemma blank_empty : blank "".
Proof. exists []. split; [constructor | reflexivity]. Qed.

Lemma blank_app a b : blank a -> blank b -> blank (a ++ b)%string.
Proof.
  intros (l1 & H1 & ->) (l2 & H2 & ->). exists (l1 ++ l2). split.
  - apply Forall_app. split; assumption.
  - symmetry. apply concat_app_s.
Qed.

Lemma blank_white w : In w JsString.white_space -> blank w.
Proof.
  intros H. exists [w]. split; [constructor; [exact H | constructor] |].
  reflexivity.
Qed.

(** One character of white space in front is removed. *)
Lemma trimStart_white w r :
  In w JsString.white_space ->
  JsString.trimStart (w ++ r)%string = JsString.trimStart r.
Proof.
  intros H. cbn in H.
  repeat (destruct H as [<- | H]; [reflexivity |]). destruct H.
Qed.

Lemma trimStart_blank s : blank s -> JsString.trimStart s = ""%string.
Proof.
  intros (l & Hl & ->). induction l as [ | w l IH]; [reflexivity |].
  inversion Hl as [ | ? ? Hw Hrest]; subst.
  rewrite concat_cons_s, trimStart_white by exact Hw. apply IH, Hrest.
Qed.

(** What [trimStart] removes is white space. *)
Lemma trimStart_split : forall n s,
  (String.length s <= n)%nat ->
  exists front, blank front /\ s = (front ++ JsString.trimStart s)%string.
Proof.
  induction n as [ | n IH]; intros s Hlen.
  - destruct s; [| cbn in Hlen; lia]. exists ""%string.
    split; [apply blank_empty | reflexivity].
  - destruct s as [ | a r1];
      [exists ""%string; split; [apply blank_empty | reflexivity] |].
    cbn [String.length] in Hlen. cbn [JsString.trimStart].
    destruct (JsString.white (String a "")) eqn:H1.
    { destruct (IH r1) as (front & Hf & Hr); [lia |].
      exists (String a front). split.
      - apply (blank_app (String a "") front); [| exact Hf].
        apply blank_white, white_In, H1.
      - cbn [append]. rewrite <- Hr. reflexivity. }
    destruct r1 as [ | b r2];
      [exists ""%string; split; [apply blank_empty | reflexivity] |].
    cbn [String.length] in Hlen.
    destruct (JsString.white (String a (String b ""))) eqn:H2.
    { destruct (IH r2) as (front & Hf & Hr); [lia |].
      exists (String a (String b front)). split.
      - apply (blank_app (String a (String b "")) front); [| exact Hf].
        apply blank_white, white_In, H2.
      - cbn [append]. rewrite <- Hr. reflexivity. }
    destruct r2 as [ | c r3];
      [exists ""%string; split; [apply blank_empty | reflexivity] |].
    cbn [String.length] in Hlen.
    destruct (JsString.white (String a (String b (String c "")))) eqn:H3.
    { destruct (IH r3) as (front & Hf & Hr); [lia |].
      exists (String a (String b (String c front))). split.
      - apply (blank_app (String a (String b (String c ""))) front);
          [| exact Hf].
        apply blank_white, white_In, H3.
      - cbn [append]. rewrite <- Hr. reflexivity. }
    exists ""%string. split; [apply blank_empty | reflexivity].
Qed.

Lemma trimStart_empty s : JsString.trimStart s = ""%string <-> blank s.
Proof.
  split; [| apply trimStart_blank]. intros H.
  destruct (trimStart_split (String.length s) s (Nat.le_refl _))
    as (front & Hf & Hs).
  rewrite H, append_nil_s in Hs. subst. exact Hf.
Qed.

Lemma blank_trimStart s : blank (JsString.trimStart s) <-> blank s.
Proof.
  split.
  - intros H.
    destruct (trimStart_split (String.length s) s (Nat.le_refl _))
      as (front & Hf & Hs).
    rewrite Hs. apply blank_app; assumption.
  - intros H. rewrite (trimStart_blank s H). apply blank_empty.
Qed.

Lemma trimEnd_empty s : JsString.trimEnd s = ""%string <-> blank s.
Proof.
  rewrite <- trimStart_empty.
  destruct s as [ | c r]; cbn [JsString.trimEnd].
  - cbn. tauto.
  - destruct (String.eqb (JsString.trimStart (String c r)) "") eqn:E.
    + apply String.eqb_eq in E. tauto.
    + apply String.eqb_neq in E. split; [discriminate | tauto].
Qed.

(** [s.trim()] is empty exactly when [s] is made of white space. *)
Lemma trim_empty s : JsString.trim s = ""%string <-> blank s.
Proof.
  unfold JsString.trim. rewrite trimEnd_empty. apply blank_trimStart.
Qed.

(** A filter argument is ignored exactly when it is absent or made of
    white space only (the empty text included). *)
Lemma filter_given_false arg :
  filter_given arg = false
  <-> arg = None \/ exists s, arg = Some s /\ blank s.
Proof.
  destruct arg as [s | ]; cbn.
  - rewrite andb_false_iff, !negb_false_iff, !String.eqb_eq, trim_empty.
    split.
    + intros [-> | H]; right; eexists; split; eauto. apply blank_empty.
    + intros [H | (s' & Hs & H)]; [discriminate |]. injection Hs as <-. auto.
  - split; auto.
Qed.

(** ** The listing tools *)

Lemma map_r_length {B} (f : json -> result B) : forall l r,
  Js.map_r f l = Ok r -> List.length r = List.length l.
Proof.
  induction l as [ | x l IH]; intros r H; cbn in H.
  - injection H as <-. reflexivity.
  - destruct (f x); cbn in H; [| discriminate].
    destruct (Js.map_r f l) as [r' | ]; cbn in H; [| discriminate].
    injection H as <-. cbn. rewrite (IH r' eq_refl). reflexivity.
Qed.

Lemma keyword_matches_strings keyword indicator name id :
  Js.prop "name" (Some indicator) = Ok (Some (JStr name)) ->
  Js.prop "id" (Some indicator) = Ok (Some (JStr id)) ->
  keyword_matches keyword indicator
  = Ok (JsString.includes (JsString.toLowerCase name) (JsString.toLowerCase keyword)
        || JsString.includes (JsString.toLowerCase id) (JsString.toLowerCase keyword)).
Proof.
  intros Hn Hi. unfold keyword_matches. rewrite Hn. cbn [rbind Js.lower_includes].
  destruct (JsString.includes (JsString.toLowerCase name)
              (JsString.toLowerCase keyword)); [reflexivity |].
  rewrite Hi. reflexivity.
Qed.

(** C9.  The indicators the search tool lists are the first 20 of those
    that match the keyword, in catalogue order, so at most 20; a record
    matches when its name or its id, in lower case, contains the
    keyword in lower case.  The tool formats exactly these. *)
Theorem search_indicators_lists_at_most_20 :
  forall keyword indicators shown,
    filteredIndicators keyword indicators = Ok shown ->
    shown = firstn 20 (List.filter (holds (keyword_matches keyword)) indicators)
    /\ (List.length shown <= 20)%nat
    /\ (forall indicator name id,
          Js.prop "name" (Some indicator) = Ok (Some (JStr name)) ->
          Js.prop "id" (Some indicator) = Ok (Some (JStr id)) ->
          (holds (keyword_matches keyword) indicator = true
           <-> substring (JsString.toLowerCase keyword) (JsString.toLowerCase name)
               \/ substring (JsString.toLowerCase keyword) (JsString.toLowerCase id)))
    /\ (forall upstream ToNumber toLocaleString w w1,
          getIndicators upstream ToNumber w = (Ok indicators, w1) ->
          call_tool upstream ToNumber toLocaleString (search_indicators keyword) w
          = (match shown with
             | [] => Ok "No related indicators found"%string
             | _ => rbind (Js.map_r indicatorLine shown)
                      (fun lines => Ok (JsString.join "\n" lines))
             end, w1)
          /\ (forall lines, Js.map_r indicatorLine shown = Ok lines ->
                (List.length lines <= 20)%nat)).
Proof.
  intros keyword indicators shown H. unfold filteredIndicators in H.
  destruct (Js.filter (keyword_matches keyword) indicators) as [matching | ] eqn:Hf;
    unfold rbind in H; [| discriminate H].
  assert (Hs : shown = firstn 20 matching) by congruence.
  clear H. subst shown.
  assert (Hlen : (List.length (firstn 20 matching) <= 20)%nat)
    by apply firstn_le_length.
  split; [destruct (filter_spec _ _ _ Hf) as [-> _]; reflexivity |].
  split; [exact Hlen |]. split.
  - intros indicator name id Hn Hi. unfold holds.
    rewrite (keyword_matches_strings keyword indicator name id Hn Hi).
    rewrite orb_true_iff, !includes_spec. tauto.
  - intros upstream ToNumber toLocaleString w w1 Hget. split.
    + cbn [call_tool]. unfold bind. rewrite Hget.
      unfold filteredIndicators, lift. rewrite Hf. cbn [rbind].
      generalize (firstn 20 matching). intros [ | i shown]; [reflexivity |].
      cbn [List.length].
      replace (Z.of_nat (S (List.length shown)) =? 0) with false
        by (symmetry; apply Z.eqb_neq; lia).
      destruct (Js.map_r indicatorLine (i :: shown)); reflexivity.
    + intros lines Hl. apply map_r_length in Hl. lia.
Qed.

Lemma search_indicators_lists_at_most_20_witness :
  (List.length
     (firstn 20
        (List.filter (holds (keyword_matches "CHIN"))
           (repeat Sample.china 25))) <= 20)%nat.
Proof.
  apply (search_indicators_lists_at_most_20 "CHIN" (repeat Sample.china 25)
           (repeat Sample.china 20)).
  vm_compute. reflexivity.
Defined.


Lemma filter_filter {A} (p q : A -> bool) : forall l,
  List.filter q (List.filter p l) = List.filter (fun x => p x && q x) l.
Proof.
  induction l as [ | x l IH]; cbn; [reflexivity |].
  destruct (p x); cbn; [destruct (q x) |]; rewrite IH; reflexivity.
Qed.

Lemma filter_all {A} (l : list A) : List.filter (fun _ => true) l = l.
Proof. induction l as [ | x l IH]; cbn; [| rewrite IH]; reflexivity. Qed.

(** One optional filter of the listing tool. *)
Lemma optional_filter arg test l r :
  match arg with
  | Some s => if filter_given arg then Js.filter (test s) l else Ok l
  | None => Ok l
  end = Ok r ->
  r = List.filter (passes arg test) l.
Proof.
  unfold passes. destruct arg as [s | ].
  - destruct (filter_given (Some s)).
    + intros H. apply filter_spec in H. apply H.
    + intros H. injection H as <-. symmetry. apply filter_all.
  - intros H. injection H as <-. symmetry. apply filter_all.
Qed.

Lemma passes_contains arg test c v :
  (forall s, test s c = Ok (JsString.includes v s)) ->
  (passes arg test c = true <-> forall s, applies arg s -> substring s v).
Proof.
  intros Htest. unfold passes, applies, holds. destruct arg as [s | ].
  - destruct (filter_given (Some s)).
    + rewrite Htest, includes_spec. split.
      * intros H s' [Hs _]. injection Hs as <-. exact H.
      * intros H. apply H. split; reflexivity.
    + split; [intros _ s' [_ H]; discriminate | reflexivity].
  - split; [intros _ s' [H _]; discriminate | reflexivity].
Qed.

(** C10.  The countries the listing tool shows are those whose record
    passes both filters, in cache order, and its answer is the lines of
    exactly these.  A filter argument that is absent or made of white
    space only (the empty text included) filters nothing out; one that
    is given keeps a record exactly when the text occurs in the value
    of its region, respectively of its income level, as a substring. *)
Theorem get_countries_filters_by_containment :
  forall region incomeLevel countries shown,
    filteredCountries region incomeLevel countries = Ok shown ->
    shown = List.filter
              (fun c => passes region in_region c
                        && passes incomeLevel in_incomeLevel c) countries
    /\ (forall c regionValue incomeValue,
          region_value c = Ok (Some (JStr regionValue)) ->
          income_value c = Ok (Some (JStr incomeValue)) ->
          (In c shown
           <-> In c countries
               /\ (forall r, applies region r -> substring r regionValue)
               /\ (forall i, applies incomeLevel i -> substring i incomeValue)))
    /\ (forall arg s,
          arg = Some s -> (filter_given arg = false <-> blank s))
    /\ filter_given None = false
    /\ (forall upstream ToNumber toLocaleString w w1,
          getCountries upstream ToNumber w = (Ok countries, w1) ->
          call_tool upstream ToNumber toLocaleString
            (get_countries region incomeLevel) w
          = (rbind (Js.map_r countryLine shown) (fun lines =>
             Ok (if String.eqb (JsString.join "\n" lines) ""
                 then "No countries found matching the criteria"%string
                 else JsString.join "\n" lines)),
             w1)).
Proof.
  intros region incomeLevel countries shown Hshow.
  pose proof Hshow as H. unfold filteredCountries in H.
  match type of H with
  | rbind ?m _ = _ => destruct m as [byRegion | ] eqn:Hr
  end; unfold rbind in H; [| discriminate H].
  apply optional_filter in Hr. apply optional_filter in H.
  assert (Hshown : shown = List.filter
              (fun c => passes region in_region c
                        && passes incomeLevel in_incomeLevel c) countries).
  { rewrite H, Hr. apply filter_filter. }
  split; [exact Hshown |].
  split; [| split; [| split; [reflexivity |]]].
  - intros c regionValue incomeValue Hrv Hiv.
    rewrite Hshown, filter_In, andb_true_iff.
    rewrite (passes_contains region in_region c regionValue),
            (passes_contains incomeLevel in_incomeLevel c incomeValue).
    + tauto.
    + intros s. unfold in_incomeLevel. unfold income_value in Hiv.
      destruct (Js.prop "incomeLevel" (Some c)) as [il | ];
        unfold rbind in *; [| discriminate Hiv].
      rewrite Hiv. reflexivity.
    + intros s. unfold in_region. unfold region_value in Hrv.
      destruct (Js.prop "region" (Some c)) as [rg | ];
        unfold rbind in *; [| discriminate Hrv].
      rewrite Hrv. reflexivity.
  - intros arg s ->. rewrite filter_given_false. split.
    + intros [H' | (s' & Hs & H')]; [discriminate |]. injection Hs as <-. exact H'.
    + intros H'. right. eauto.
  - intros upstream ToNumber toLocaleString w w1 Hget.
    cbn [call_tool]. unfold bind. rewrite Hget. unfold lift.
    rewrite Hshow.
    destruct (Js.map_r countryLine shown); reflexivity.
Qed.

Lemma get_countries_filters_by_containment_witness :
  fst (call_tool Sample.two_pages Sample.NaN_for_all Sample.plain_locale
         (get_countries (Some "Asia"%string) (Some Fixture.nbsp)) initial_world)
  = Ok "China (CN) - East Asia & Pacific - Upper middle income"%string.
Proof.
  destruct (get_countries_filters_by_containment (Some "Asia"%string)
              (Some Fixture.nbsp) [Sample.china; Sample.usa] [Sample.china])
    as (_ & _ & _ & _ & Htool); [vm_compute; reflexivity |].
  rewrite (Htool Sample.two_pages Sample.NaN_for_all Sample.plain_locale
             initial_world
             (snd (getCountries Sample.two_pages Sample.NaN_for_all
                     initial_world)));
    vm_compute; reflexivity.
Defined.


(** * Further properties *)

(** ** More on the page aggregator *)

Lemma pages_from_requests ep perPage : forall n p,
  Forall (fun r => endpoint r = ep /\ per_page r = perPage)
    (map (page_request ep perPage) (pages_from p n)).
Proof.
  induction n as [ | n IH]; intros p; cbn; constructor; auto.
Qed.

(** X1.  Whatever the upstream answers, [getCompleteList] does not
    throw, leaves both caches alone and makes at most [maxPages]
    requests, every one for its endpoint and with its page size; with
    [maxPages] below 1 it makes none and returns the empty list. *)
Theorem getCompleteList_safety_ceiling :
  forall upstream ToNumber ep params maxPages perPage w,
  exists allData served,
    getCompleteList upstream ToNumber ep params maxPages perPage w
      = (Ok allData,
         mkWorld (COUNTRIES_CACHE w) (INDICATORS_CACHE w) (traffic w ++ served))
    /\ Z.of_nat (List.length served) <= Z.max 0 maxPages
    /\ Forall (fun e => endpoint (fst e) = ep /\ per_page (fst e) = perPage) served
    /\ (maxPages < 1 -> served = [] /\ allData = []).
Proof.
  intros upstream ToNumber ep params maxPages perPage w.
  destruct (getCompleteList_spec upstream ToNumber ep params maxPages perPage w)
    as (served & Hrun & Hreq & Hlen & _).
  exists (fold_left Js.concat (payloads served) []), served.
  split; [exact Hrun |]. split; [exact Hlen |]. split.
  - rewrite <- Forall_map with (f := fst)
      (P := fun r => endpoint r = ep /\ per_page r = perPage).
    rewrite Hreq. apply pages_from_requests.
  - intros Hmax. assert (Hnil : served = []).
    { destruct served; [reflexivity | cbn in Hlen; lia]. }
    subst served. split; reflexivity.
Qed.

Section CeilingFacts.

Variable upstream : list (request * axios_outcome) -> request -> axios_outcome.
Variable ToNumber : json -> option Z.

Lemma page_step_lacking_pages ep params perPage currentPage allData w :
  lacks_pages upstream ep ->
  exists allData' served,
    page_step upstream ToNumber ep params perPage currentPage allData w
      = (Continue, allData',
         mkWorld (COUNTRIES_CACHE w) (INDICATORS_CACHE w) (traffic w ++ served))
    /\ List.length served = 1%nat.
Proof.
  intros Hlack. unfold page_step. rewrite makeWorldBankRequest_run.
  cbn [qp_page qp_per_page].
  destruct (Hlack (traffic w) (mkRequest ep (Some currentPage) perPage) eq_refl)
    as (meta & pageData & rest & Hn & Hp).
  rewrite Hn, Hp. cbn [ge_value].
  eexists. eexists. split; reflexivity.
Qed.

Lemma pages_loop_lacking_pages ep params maxPages perPage :
  lacks_pages upstream ep ->
  forall n currentPage allData w,
    Z.to_nat (maxPages + 1 - currentPage) = n ->
    List.length
      (traffic (snd (pages_loop upstream ToNumber ep params maxPages perPage
                       currentPage allData w)))
    = (List.length (traffic w) + n)%nat.
Proof.
  intros Hlack. induction n as [ | n IH]; intros currentPage allData w Hn;
    rewrite pages_loop_while;
    destruct (Z_le_dec currentPage maxPages) as [Hle | Hgt]; try lia.
  - cbn. lia.
  - destruct (page_step_lacking_pages ep params perPage currentPage allData w Hlack)
      as (allData' & served & Hstep & Hone).
    rewrite Hstep, IH by lia. cbn [traffic]. rewrite length_app. lia.
Qed.

End CeilingFacts.

(** X2.  When the metadata of every page has no [pages] field, the
    comparison with [undefined] never stops the loop: [getCompleteList]
    makes exactly [maxPages] requests. *)
Theorem getCompleteList_without_pages_runs_to_ceiling :
  forall upstream ToNumber ep params maxPages perPage w,
    lacks_pages upstream ep ->
    requests_issued
      (getCompleteList upstream ToNumber ep params maxPages perPage) w
    = Z.to_nat maxPages.
Proof.
  intros upstream ToNumber ep params maxPages perPage w Hlack.
  unfold requests_issued, getCompleteList.
  pose proof (pages_loop_lacking_pages upstream ToNumber ep params maxPages perPage
                Hlack _ 1 [] w eq_refl) as Hlen.
  destruct (pages_loop upstream ToNumber ep params maxPages perPage 1 [] w)
    as [allData w'].
  cbn [snd] in *. rewrite Hlen.
  replace (maxPages + 1 - 1) with maxPages by lia. lia.
Qed.

Lemma bare_envelope_lacks_pages :
  lacks_pages (Sample.answers Fixture.bare_envelope) "countries".
Proof.
  intros log req _. eexists. eexists. eexists. split; reflexivity.
Qed.

Lemma getCompleteList_without_pages_runs_to_ceiling_witness :
  requests_issued
    (getCompleteList (Sample.answers Fixture.bare_envelope) Sample.NaN_for_all
       "countries" no_params 5 100) initial_world
  = 5%nat.
Proof.
  apply (getCompleteList_without_pages_runs_to_ceiling
           (Sample.answers Fixture.bare_envelope) Sample.NaN_for_all
           "countries" no_params 5 100 initial_world).
  exact bare_envelope_lacks_pages.
Defined.

(** X3.  A first page whose metadata is [null] ends the aggregation
    with an exception that is caught: the records of that page are
    returned and one request has been made. *)
Theorem getCompleteList_null_metadata_keeps_page :
  forall upstream ToNumber ep params maxPages perPage w pageData rest,
    1 <= maxPages ->
    upstream (traffic w) (page_request ep perPage 1)
      = Resolved (JArr (JNull :: pageData :: rest)) ->
    getCompleteList upstream ToNumber ep params maxPages perPage w
    = (Ok (Js.concat [] pageData),
       mkWorld (COUNTRIES_CACHE w) (INDICATORS_CACHE w)
         (traffic w
          ++ [(page_request ep perPage 1,
               Resolved (JArr (JNull :: pageData :: rest)))])).
Proof.
  intros upstream ToNumber ep params maxPages perPage w pageData rest Hmax Hup.
  unfold getCompleteList. rewrite pages_loop_while.
  destruct (Z_le_dec 1 maxPages) as [_ | Hgt]; [| lia].
  unfold page_step. rewrite makeWorldBankRequest_run.
  cbn [qp_page qp_per_page]. fold (page_request ep perPage 1).
  rewrite Hup. reflexivity.
Qed.

Lemma getCompleteList_null_metadata_keeps_page_witness :
  fst (getCompleteList (Sample.answers Fixture.null_metadata) Sample.NaN_for_all
         "countries" no_params 5 100 initial_world)
  = Ok [Sample.usa].
Proof.
  rewrite (getCompleteList_null_metadata_keeps_page
             (Sample.answers Fixture.null_metadata) Sample.NaN_for_all
             "countries" no_params 5 100 initial_world (JArr [Sample.usa]) []).
  - reflexivity.
  - lia.
  - reflexivity.
Defined.

(** ** More on the fetch primitive *)

Lemma normalize_resolved body :
  normalize (Resolved body) = JNull \/ normalize (Resolved body) = body.
Proof.
  destruct body as [ | b | n | s | l | f ]; cbn; auto.
  destruct l as [ | firstItem rest]; auto.
  destruct (_ && _); auto.
Qed.

Lemma normalize_sentinel o :
  normalize o = JNull
  <-> o = Rejected \/ o = Resolved JNull \/ o = Resolved (JArr [])
      \/ exists firstItem rest,
           o = Resolved (JArr (firstItem :: rest))
           /\ carries_truthy_message firstItem.
Proof.
  split.
  - destruct o as [ | body]; [auto |].
    destruct body as [ | b | n | s | l | f ]; cbn [normalize]; intros H;
      try discriminate H; auto.
    destruct l as [ | firstItem rest]; [auto |].
    destruct (Js.truthy (Some firstItem)) eqn:Ht; cbn [andb] in H;
      [| discriminate H].
    destruct (Js.prop "message" (Some firstItem)) as [m | ] eqn:Hm;
      [| discriminate H].
    destruct (Js.truthy m) eqn:Htm; [| discriminate H].
    right. right. right. exists firstItem, rest.
    split; [reflexivity |].
    destruct m as [m | ]; [| discriminate Htm]. exists m. auto.
  - intros [-> | [-> | [-> | (firstItem & rest & -> & Hm)]]];
      try reflexivity.
    apply normalize_no_data. right. eauto.
Qed.

(** X4.  The fetch primitive never throws.  It returns [null] exactly
    when the request was rejected, or the body is [null], an empty
    array, or an array whose first element has a truthy [message]; any
    other body is returned as it is.  A page size the caller leaves out
    is 50. *)
Theorem makeWorldBankRequest_sentinel_iff :
  forall upstream ep params w,
  exists o r,
    o = upstream (traffic w)
          (mkRequest ep (qp_page params)
             (match qp_per_page params with Some n => n | None => 50 end))
    /\ fst (makeWorldBankRequest upstream ep params w) = Ok r
    /\ (r = JNull
        <-> o = Rejected \/ o = Resolved JNull \/ o = Resolved (JArr [])
            \/ exists firstItem rest,
                 o = Resolved (JArr (firstItem :: rest))
                 /\ carries_truthy_message firstItem)
    /\ (r <> JNull -> o = Resolved r).
Proof.
  intros upstream ep params w. rewrite makeWorldBankRequest_run.
  eexists. eexists. split; [reflexivity |]. split; [reflexivity |].
  split; [apply normalize_sentinel |].
  destruct (upstream _ _) as [ | body]; [intros H; exfalso; apply H; reflexivity |].
  destruct (normalize_resolved body) as [H | H]; rewrite H; congruence.
Qed.

(** ** More on the reference caches *)

Lemma filter_throws p : forall l,
  Js.filter p l = Throw <-> exists x, In x l /\ p x = Throw.
Proof.
  induction l as [ | a l IH]; cbn.
  - split; [discriminate | intros (x & [] & _)].
  - destruct (p a) as [b | ] eqn:Hp; cbn.
    + destruct (Js.filter p l) as [r | ] eqn:Hf; cbn.
      * split; [discriminate |]. intros (x & [<- | Hin] & Hx); [congruence |].
        assert (Hno : Ok r = @Throw (list json)) by (apply IH; eauto).
        discriminate Hno.
      * split; [| reflexivity]. intros _.
        destruct (proj1 IH eq_refl) as (x & Hin & Hx). eauto.
    + split; [| reflexivity]. intros _. exists a. auto.
Qed.

Section MoreCacheFacts.

Variable upstream : list (request * axios_outcome) -> request -> axios_outcome.
Variable ToNumber : json -> option Z.

(** [getIndicators] with an empty cache. *)
Lemma getIndicators_fetch w :
  INDICATORS_CACHE w = [] ->
  exists served,
    let allIndicators := fold_left Js.concat (payloads served) [] in
    (1 <= List.length served <= 10)%nat
    /\ getCompleteList upstream ToNumber "indicators" no_params 10 50 w
       = (Ok allIndicators,
          mkWorld (COUNTRIES_CACHE w) [] (traffic w ++ served))
    /\ getIndicators upstream ToNumber w
       = (Ok allIndicators,
          mkWorld (COUNTRIES_CACHE w) allIndicators (traffic w ++ served)).
Proof.
  intros Hc.
  destruct (getCompleteList_spec upstream ToNumber "indicators" no_params 10 50 w)
    as (served & Hrun & _ & Hlen & _ & _ & Hone & _).
  exists served. cbn zeta. rewrite Hc in Hrun.
  split; [split; [apply Hone; lia | lia] |]. split; [exact Hrun |].
  unfold getIndicators, bind. rewrite nonempty_test, Hc, Hrun, nonempty_test.
  destruct (fold_left Js.concat (payloads served) []); reflexivity.
Qed.

Lemma getIndicators_cached w :
  INDICATORS_CACHE w <> [] ->
  getIndicators upstream ToNumber w = (Ok (INDICATORS_CACHE w), w).
Proof.
  intros H. unfold getIndicators. rewrite nonempty_test.
  destruct (INDICATORS_CACHE w); [congruence | reflexivity].
Qed.

(** [getCountries] with an empty cache: bounds on what was served. *)
Lemma getCountries_fetch_bounded w :
  COUNTRIES_CACHE w = [] ->
  exists served,
    let allCountries := fold_left Js.concat (payloads served) [] in
    let w1 := mkWorld [] (INDICATORS_CACHE w) (traffic w ++ served) in
    (1 <= List.length served <= 5)%nat
    /\ Forall (fun e => endpoint (fst e) = "countries"%string
                        /\ per_page (fst e) = 100) served
    /\ getCompleteList upstream ToNumber "countries" no_params 5 100 w
       = (Ok allCountries, w1)
    /\ getCountries upstream ToNumber w
       = match Js.filter real_country allCountries with
         | Ok kept => (Ok kept, set_COUNTRIES_CACHE kept w1)
         | Throw => (Throw, w1)
         end.
Proof.
  intros Hc.
  destruct (getCompleteList_spec upstream ToNumber "countries" no_params 5 100 w)
    as (served & Hrun & Hreq & Hlen & _ & _ & Hone & _).
  exists served. cbn zeta. rewrite Hc in Hrun.
  split; [split; [apply Hone; lia | lia] |]. split.
  { rewrite <- Forall_map with (f := fst)
      (P := fun r => endpoint r = "countries"%string /\ per_page r = 100).
    rewrite Hreq. apply pages_from_requests. }
  split; [exact Hrun |].
  unfold getCountries, bind. rewrite nonempty_test, Hc, Hrun, nonempty_test.
  destruct (fold_left Js.concat (payloads served) []) as [ | a all];
    [reflexivity |].
  unfold lift. destruct (Js.filter real_country (a :: all)); reflexivity.
Qed.

End MoreCacheFacts.

(** X5.  [getIndicators] never throws and filters nothing: with a
    non-empty cache it returns the cache and changes nothing; with an
    empty one it returns what the aggregator collected from at most 10
    pages of 50 of the indicators endpoint, and the cache then holds
    exactly that. *)
Theorem getIndicators_caches_unfiltered :
  forall upstream ToNumber w,
    (INDICATORS_CACHE w <> [] ->
     getIndicators upstream ToNumber w = (Ok (INDICATORS_CACHE w), w))
    /\ (INDICATORS_CACHE w = [] ->
        exists allIndicators served,
          getCompleteList upstream ToNumber "indicators" no_params 10 50 w
            = (Ok allIndicators,
               mkWorld (COUNTRIES_CACHE w) [] (traffic w ++ served))
          /\ getIndicators upstream ToNumber w
             = (Ok allIndicators,
                mkWorld (COUNTRIES_CACHE w) allIndicators (traffic w ++ served))
          /\ (1 <= List.length served <= 10)%nat).
Proof.
  intros upstream ToNumber w. split.
  - apply getIndicators_cached.
  - intros Hc.
    destruct (getIndicators_fetch upstream ToNumber w Hc)
      as (served & Hlen & Hlist & Hrun).
    eexists. exists served. split; [exact Hlist |]. split; [exact Hrun | exact Hlen].
Qed.

Lemma getIndicators_caches_unfiltered_witness :
  fst (getIndicators Fixture.both Sample.NaN_for_all initial_world)
    = Ok [Fixture.gdp; Fixture.population]
  /\ (let w1 := snd (getIndicators Fixture.both Sample.NaN_for_all initial_world) in
      getIndicators Fixture.both Sample.NaN_for_all w1
      = (Ok [Fixture.gdp; Fixture.population], w1)).
Proof.
  split; [vm_compute; reflexivity |]. cbn zeta.
  rewrite (proj1 (getIndicators_caches_unfiltered Fixture.both Sample.NaN_for_all
                    (snd (getIndicators Fixture.both Sample.NaN_for_all
                            initial_world)))).
  - vm_compute. reflexivity.
  - vm_compute. discriminate.
Defined.

(** X6.  A call of [getCountries] makes no request when the cache is
    populated, and otherwise between 1 and 5, all of them for the
    countries endpoint with a page size of 100, whether it returns or
    throws. *)
Theorem getCountries_request_pattern :
  forall upstream ToNumber w,
  exists served,
    traffic (snd (getCountries upstream ToNumber w)) = traffic w ++ served
    /\ Forall (fun e => endpoint (fst e) = "countries"%string
                        /\ per_page (fst e) = 100) served
    /\ (COUNTRIES_CACHE w <> [] -> served = [])
    /\ (COUNTRIES_CACHE w = [] -> (1 <= List.length served <= 5)%nat).
Proof.
  intros upstream ToNumber w.
  destruct (COUNTRIES_CACHE w) as [ | c0 cs] eqn:Hc.
  - destruct (getCountries_fetch_bounded upstream ToNumber w Hc)
      as (served & Hlen & Hall & _ & Hrun). cbn zeta in Hrun.
    exists served. rewrite Hrun.
    split; [destruct (Js.filter real_country _); reflexivity |].
    split; [exact Hall |]. split; [congruence | auto].
  - exists []. rewrite getCountries_cached by congruence. cbn [snd].
    rewrite app_nil_r. repeat split; auto; discriminate.
Qed.

(** X7.  With an empty cache, [getCountries] throws exactly when the
    filter predicate throws on one of the fetched records, as it does
    on a [null] record; nothing is cached then. *)
Theorem getCountries_throws_iff :
  forall upstream ToNumber w allCountries w1,
    COUNTRIES_CACHE w = [] ->
    getCompleteList upstream ToNumber "countries" no_params 5 100 w
      = (Ok allCountries, w1) ->
    (fst (getCountries upstream ToNumber w) = Throw
     <-> exists c, In c allCountries /\ real_country c = Throw)
    /\ (In JNull allCountries -> fst (getCountries upstream ToNumber w) = Throw)
    /\ (fst (getCountries upstream ToNumber w) = Throw ->
        COUNTRIES_CACHE (snd (getCountries upstream ToNumber w)) = []).
Proof.
  intros upstream ToNumber w allCountries w1 Hc Hlist.
  destruct (getCountries_fetch_bounded upstream ToNumber w Hc)
    as (served & _ & _ & Hlist' & Hrun). cbn zeta in Hlist', Hrun.
  rewrite Hlist' in Hlist. injection Hlist as Hall _. rewrite Hall in Hrun.
  assert (Hiff : fst (getCountries upstream ToNumber w) = Throw
                 <-> exists c, In c allCountries /\ real_country c = Throw).
  { rewrite <- filter_throws, Hrun.
    destruct (Js.filter real_country allCountries); cbn; split; congruence. }
  split; [exact Hiff |]. split.
  - intros Hin. apply Hiff. exists JNull. split; [exact Hin | reflexivity].
  - rewrite Hrun. destruct (Js.filter real_country allCountries); cbn;
      [discriminate | reflexivity].
Qed.

Lemma getCountries_throws_iff_witness :
  fst (getCountries (Sample.answers Fixture.null_record_page) Sample.NaN_for_all
         initial_world) = Throw.
Proof.
  apply (getCountries_throws_iff (Sample.answers Fixture.null_record_page)
           Sample.NaN_for_all initial_world [Sample.china; JNull]
           (snd (getCompleteList (Sample.answers Fixture.null_record_page)
                   Sample.NaN_for_all "countries" no_params 5 100 initial_world))).
  - reflexivity.
  - vm_compute. reflexivity.
  - right. left. reflexivity.
Defined.

(** X8.  With an empty cache, when the filter retains none of the
    fetched records (a page of aggregates only, say), [getCountries]
    returns the empty list, the cache stays empty, and the next call
    fetches again. *)
Theorem getCountries_all_filtered_out :
  forall upstream ToNumber w allCountries w1,
    COUNTRIES_CACHE w = [] ->
    getCompleteList upstream ToNumber "countries" no_params 5 100 w
      = (Ok allCountries, w1) ->
    (forall c, In c allCountries -> real_country c = Ok false) ->
    getCountries upstream ToNumber w = (Ok [], w1)
    /\ COUNTRIES_CACHE w1 = []
    /\ (1 <= requests_issued (getCountries upstream ToNumber) w1)%nat.
Proof.
  intros upstream ToNumber w allCountries w1 Hc Hlist Hnone.
  destruct (getCountries_fetch_bounded upstream ToNumber w Hc)
    as (served & _ & _ & Hlist' & Hrun). cbn zeta in Hlist', Hrun.
  rewrite Hlist' in Hlist. injection Hlist as Hall Hw. rewrite Hall in Hrun.
  assert (Hf : Js.filter real_country allCountries = Ok []).
  { clear - Hnone. induction allCountries as [ | a l IH]; [reflexivity |].
    cbn. rewrite (Hnone a) by (left; reflexivity). cbn.
    rewrite IH; [reflexivity |]. intros c Hin. apply Hnone. right. exact Hin. }
  rewrite Hf in Hrun. subst w1. split; [exact Hrun |]. split; [reflexivity |].
  destruct (getCountries_fetch_bounded upstream ToNumber
              (mkWorld [] (INDICATORS_CACHE w) (traffic w ++ served)) eq_refl)
    as (served' & Hlen & _ & _ & Hrun'). cbn zeta in Hrun', Hlen.
  unfold requests_issued. rewrite Hrun'.
  destruct (Js.filter real_country (fold_left Js.concat (payloads served') []));
    cbn [snd traffic set_COUNTRIES_CACHE]; rewrite !length_app; lia.
Qed.

Lemma getCountries_all_filtered_out_witness :
  getCountries (Sample.answers Fixture.aggregates_page) Sample.NaN_for_all
    initial_world
  = (Ok [],
     snd (getCompleteList (Sample.answers Fixture.aggregates_page)
            Sample.NaN_for_all "countries" no_params 5 100 initial_world)).
Proof.
  apply (getCountries_all_filtered_out (Sample.answers Fixture.aggregates_page)
           Sample.NaN_for_all initial_world [Sample.world_aggregate]).
  - reflexivity.
  - vm_compute. reflexivity.
  - intros c [<- | []]. reflexivity.
Defined.

(** ** More on the country lookup *)

Lemma upper_lower_char c :
  JsString.upper_char (JsString.lower_char c) = JsString.upper_char c.
Proof. destruct c as [[] [] [] [] [] [] [] []]; reflexivity. Qed.

Lemma upper_upper_char c :
  JsString.upper_char (JsString.upper_char c) = JsString.upper_char c.
Proof. destruct c as [[] [] [] [] [] [] [] []]; reflexivity. Qed.

Lemma lower_upper_char c :
  JsString.lower_char (JsString.upper_char c) = JsString.lower_char c.
Proof. destruct c as [[] [] [] [] [] [] [] []]; reflexivity. Qed.

Lemma lower_lower_char c :
  JsString.lower_char (JsString.lower_char c) = JsString.lower_char c.
Proof. destruct c as [[] [] [] [] [] [] [] []]; reflexivity. Qed.

Lemma map_string_compose f g h :
  (forall c, f (g c) = h c) ->
  forall s, JsString.map_string f (JsString.map_string g s)
            = JsString.map_string h s.
Proof.
  intros H. induction s as [ | c s IH]; cbn; [reflexivity |].
  rewrite H, IH. reflexivity.
Qed.

Lemma find_ext p q : forall l,
  (forall x, p x = q x) -> Js.find p l = Js.find q l.
Proof.
  intros l H. induction l as [ | a l IH]; cbn; [reflexivity |].
  rewrite H, IH. reflexivity.
Qed.

Lemma code_matches_case a b c :
  eq_nocase a b -> code_matches a c = code_matches b c.
Proof. unfold eq_nocase, code_matches. intros ->. reflexivity. Qed.

Lemma ascii_only_lower s :
  ascii_only s = true -> ascii_only (JsString.toLowerCase s) = true.
Proof.
  induction s as [ | c s IH]; [reflexivity |].
  intros H. cbn [ascii_only] in H. apply andb_prop in H. destruct H as [Hc Hs].
  change (ascii_only (String (JsString.lower_char c) (JsString.toLowerCase s)) = true).
  cbn [ascii_only]. rewrite (IH Hs), andb_true_r. clear - Hc.
  destruct c as [[] [] [] [] [] [] [] []]; vm_compute in Hc |- *; congruence.
Qed.

Lemma ascii_only_upper s :
  ascii_only s = true -> ascii_only (JsString.toUpperCase s) = true.
Proof.
  induction s as [ | c s IH]; [reflexivity |].
  intros H. cbn [ascii_only] in H. apply andb_prop in H. destruct H as [Hc Hs].
  change (ascii_only (String (JsString.upper_char c) (JsString.toUpperCase s)) = true).
  cbn [ascii_only]. rewrite (IH Hs), andb_true_r. clear - Hc.
  destruct c as [[] [] [] [] [] [] [] []]; vm_compute in Hc |- *; congruence.
Qed.

(** X9.  Two codes with the same upper-case form find the same record
    (or none, or the same exception) in any collection.  For a code of
    ASCII characters, the code, its lower-case form and its upper-case
    form, themselves ASCII, find the same record: the lookup does not
    depend on the letter case of such a code.  Outside ASCII the case
    maps of the language do not undo each other and nothing is
    claimed. *)
Theorem find_country_input_case :
  forall countries code,
    (forall other, eq_nocase code other ->
       find_country countries code = find_country countries other)
    /\ (ascii_only code = true ->
        ascii_only (JsString.toLowerCase code) = true
        /\ ascii_only (JsString.toUpperCase code) = true
        /\ find_country countries (JsString.toLowerCase code)
           = find_country countries code
        /\ find_country countries (JsString.toUpperCase code)
           = find_country countries code).
Proof.
  intros countries code. unfold find_country. split.
  - intros other H. apply find_ext. intros c. apply code_matches_case, H.
  - intros Hascii.
    split; [apply ascii_only_lower, Hascii |].
    split; [apply ascii_only_upper, Hascii |]. split.
    + apply find_ext. intros c. apply code_matches_case. unfold eq_nocase.
      apply map_string_compose, upper_lower_char.
    + apply find_ext. intros c. apply code_matches_case. unfold eq_nocase.
      apply map_string_compose, upper_upper_char.
Qed.

Lemma find_country_input_case_witness :
  find_country [Sample.china; Sample.usa] "us" = Ok (Some Sample.usa)
  /\ find_country [Sample.china; Sample.usa] "Us" = Ok (Some Sample.usa).
Proof.
  destruct (find_country_input_case [Sample.china; Sample.usa] "Us")
    as [_ Hcase].
  destruct (Hcase eq_refl) as (_ & _ & Hlower & _).
  split; [| reflexivity].
  transitivity (find_country [Sample.china; Sample.usa] "Us");
    [exact Hlower | reflexivity].
Defined.

Lemma find_none_iff p : forall l,
  Forall (fun x => exists b, p x = Ok b) l ->
  (Js.find p l = Ok None <-> forall x, In x l -> p x = Ok false).
Proof.
  induction l as [ | a l IH]; intros Hall; cbn.
  - split; [intros _ x [] | reflexivity].
  - inversion Hall as [ | ? ? [b Hb] Hl]; subst. rewrite Hb. cbn.
    destruct b.
    + split; [discriminate |]. intros H.
      specialize (H a (or_introl eq_refl)). congruence.
    + rewrite (IH Hl). split.
      * intros H x [<- | Hin]; auto.
      * intros H x Hin. apply H. right. exact Hin.
Qed.

Lemma find_total p : forall l,
  Forall (fun x => exists b, p x = Ok b) l -> exists r, Js.find p l = Ok r.
Proof.
  induction l as [ | a l IH]; intros Hall; cbn; [eauto |].
  inversion Hall as [ | ? ? [b Hb] Hl]; subst. rewrite Hb. cbn.
  destruct b; eauto.
Qed.

Lemma code_matches_false code c :
  (exists b, code_matches code c = Ok b) ->
  (code_matches code c = Ok false
   <-> ~ carries_code (JsString.toUpperCase code) c).
Proof.
  intros Hread. unfold carries_code. split.
  - intros Hf Hc.
    rewrite (code_matches_stored code c _ Hread Hc eq_refl) in Hf. discriminate.
  - intros Hn. destruct Hread as [[ | ] Hb]; [| exact Hb].
    exfalso. apply Hn. apply code_matches_true, Hb.
Qed.

(** X10.  In every state the server can reach, the lookup in the
    countries cache does not throw, and it finds nothing exactly when
    no cached record has the upper-cased code as its 2-letter code or
    as its identifier. *)
Theorem find_country_miss_iff :
  forall upstream ToNumber toLocaleString w code,
    reachable upstream ToNumber toLocaleString w ->
    (exists r, find_country (COUNTRIES_CACHE w) code = Ok r)
    /\ (find_country (COUNTRIES_CACHE w) code = Ok None
        <-> forall c, In c (COUNTRIES_CACHE w) ->
                      ~ carries_code (JsString.toUpperCase code) c).
Proof.
  intros upstream ToNumber toLocaleString w code Hr.
  apply reachable_real in Hr. unfold cache_real in Hr.
  assert (Hread : Forall (fun x => exists b, code_matches code x = Ok b)
                    (COUNTRIES_CACHE w)).
  { eapply Forall_impl; [| exact Hr]. intros x. apply real_country_readable. }
  unfold find_country. split; [apply find_total, Hread |].
  rewrite (find_none_iff _ _ Hread). rewrite Forall_forall in Hread.
  split; intros H c Hin; apply (code_matches_false code c (Hread c Hin)); auto.
Qed.

Lemma find_country_miss_iff_witness :
  find_country
    (COUNTRIES_CACHE
       (snd (getCountries Sample.two_pages Sample.NaN_for_all initial_world)))
    "zz" = Ok None.
Proof.
  apply (find_country_miss_iff Sample.two_pages Sample.NaN_for_all
           Sample.plain_locale).
  - apply reach_countries. apply reach_start.
  - vm_compute. intros c [<- | [<- | []]] [H | H]; discriminate H.
Defined.

(** ** More on the tools *)

Lemma code_matches_object code c :
  code_matches code c = Ok true -> Js.truthy (Some c) = true.
Proof.
  intros H. apply code_matches_true in H.
  destruct c; destruct H as [H | H]; cbn in H; try discriminate; reflexivity.
Qed.

(** X11.  Once the countries are resolved, the country-details tool
    makes no further request: it answers ['Error: Country not found']
    when the lookup finds nothing, and otherwise the card of the first
    record that matches. *)
Theorem get_country_info_answers :
  forall upstream ToNumber toLocaleString w countryCode countries w1,
    getCountries upstream ToNumber w = (Ok countries, w1) ->
    (find_country countries countryCode = Ok None ->
     call_tool upstream ToNumber toLocaleString (get_country_info countryCode) w
     = (Ok "Error: Country not found"%string, w1))
    /\ (forall c,
          find_country countries countryCode = Ok (Some c) ->
          call_tool upstream ToNumber toLocaleString
            (get_country_info countryCode) w
          = (formatCountryInfo c, w1)).
Proof.
  intros upstream ToNumber toLocaleString w countryCode countries w1 Hget.
  cbn [call_tool]. unfold bind. rewrite Hget. unfold lift. split.
  - intros ->. reflexivity.
  - intros c Hc. rewrite Hc.
    destruct (find_spec _ _ _ Hc) as (_ & _ & _ & Hm & _).
    rewrite (code_matches_object _ _ Hm). reflexivity.
Qed.

Lemma get_country_info_answers_witness :
  call_tool Sample.two_pages Sample.NaN_for_all Sample.plain_locale
    (get_country_info "usa") initial_world
  = (formatCountryInfo Sample.usa,
     snd (getCountries Sample.two_pages Sample.NaN_for_all initial_world)).
Proof.
  apply (get_country_info_answers Sample.two_pages Sample.NaN_for_all
           Sample.plain_locale initial_world "usa" [Sample.china; Sample.usa]).
  - vm_compute. reflexivity.
  - vm_compute. reflexivity.
Defined.

(** ** The card of a country *)

Lemma prop_throws k v :
  Js.prop k v = Throw <-> v = None \/ v = Some JNull.
Proof.
  destruct v as [[ | b | n | s | l | fields ] | ]; cbn [Js.prop];
    try destruct (String.eqb k "length");
    split; try discriminate; auto;
    intros [H | H]; discriminate H.
Qed.

(** One step of the card: a value is read, and rendered if a template
    follows; [pos] finds the value among those of the card. *)
Ltac card_step pos :=
  match goal with
  | |- context [rbind ?p _] =>
      let v := fresh "v" in
      destruct p as [v | ]; cbn [rbind];
      [ match goal with
        | |- context [if Js.renders v then _ else _] =>
            let R := fresh "R" in
            destruct (Js.renders v) eqn:R; cbn [rbind];
            [ | split; [| reflexivity]; intros _; eexists;
                split; [pos | right; eexists; split; [reflexivity | exact R]] ]
        | _ => idtac
        end
      | split; [| reflexivity]; intros _; eexists;
        split; [pos | left; reflexivity] ]
  end.

(** The card is produced unless one of the values it shows cannot be
    read or cannot be rendered. *)
Lemma formatCountryInfo_throws c :
  formatCountryInfo c = Throw
  <-> exists r,
        In r (card_values c)
        /\ (r = Throw \/ exists v, r = Ok v /\ Js.renders v = false).
Proof.
  unfold formatCountryInfo, card_values, Js.template.
  card_step ltac:(left; reflexivity).
  card_step ltac:(right; left; reflexivity).
  card_step ltac:(right; right; left; reflexivity).
  card_step ltac:(right; right; left; reflexivity).
  card_step ltac:(do 3 right; left; reflexivity).
  card_step ltac:(do 3 right; left; reflexivity).
  card_step ltac:(do 4 right; left; reflexivity).
  card_step ltac:(do 5 right; left; reflexivity).
  card_step ltac:(do 6 right; left; reflexivity).
  split; [discriminate |].
  intros (r & Hin & Hbad). cbn [In] in Hin.
  repeat (destruct Hin as [<- | Hin];
          [destruct Hbad as [H | (x & Hx & Hr)];
           [discriminate H | injection Hx as <-; congruence] |]).
  destruct Hin.
Qed.

(** X12.  On a record that passed the filter of [getCountries], the
    card is produced unless the record has no income level (the field
    is missing or [null]) or one of the seven values the card shows
    cannot be rendered as a string: only then does [formatCountryInfo]
    throw. *)
Theorem formatCountryInfo_throws_iff :
  forall c,
    real_country c = Ok true ->
    (formatCountryInfo c = Throw
     <-> (Js.prop "incomeLevel" (Some c) = Ok None
          \/ Js.prop "incomeLevel" (Some c) = Ok (Some JNull))
         \/ exists v, In (Ok v) (card_values c) /\ Js.renders v = false).
Proof.
  intros c Hreal.
  assert (Hobj : exists fields region,
             c = JObj fields /\ Js.lookup "region" fields = Some region
             /\ exists rv, Js.prop "value" (Some region) = Ok rv).
  { unfold real_country in Hreal.
    destruct c as [ | b | n | s | l | fields ];
      try (cbn in Hreal; discriminate Hreal).
    cbn [Js.prop rbind] in Hreal.
    destruct (Js.lookup "region" fields) as [region | ] eqn:Hregion;
      [| discriminate Hreal].
    destruct (Js.prop "value" (Some region)) as [rv | ] eqn:Hrv;
      [| discriminate Hreal].
    exists fields, region. split; [reflexivity |]. split; [exact Hregion |].
    exists rv. exact Hrv. }
  destruct Hobj as (fields & region & -> & Hregion & rv & Hrv).
  rewrite formatCountryInfo_throws. unfold card_values.
  cbn [Js.prop rbind]. rewrite Hregion. cbn [rbind]. rewrite Hrv.
  split.
  - intros (r & Hin & [-> | (v & -> & Hr)]).
    + left. cbn [In] in Hin.
      repeat (destruct Hin as [Hin | Hin]; try discriminate Hin).
      * apply prop_throws in Hin. destruct Hin as [-> | ->]; auto.
      * destruct Hin.
    + right. exists v. auto.
  - intros [Hmiss | (v & Hin & Hr)].
    + exists Throw. split; [| left; reflexivity].
      do 3 right. left. apply prop_throws.
      destruct Hmiss as [H | H]; injection H as ->; auto.
    + exists (Ok v). split; [exact Hin |]. right. exists v. auto.
Qed.

Lemma formatCountryInfo_throws_iff_witness :
  formatCountryInfo Fixture.no_income = Throw.
Proof.
  apply (formatCountryInfo_throws_iff Fixture.no_income).
  - reflexivity.
  - left. left. reflexivity.
Defined.

Lemma no_visible_app a b :
  no_visible (a ++ b)%string = no_visible a && no_visible b.
Proof.
  induction a as [ | c a IH]; cbn; [reflexivity |].
  rewrite IH, andb_assoc. reflexivity.
Qed.

Lemma white_no_visible w :
  In w JsString.white_space -> no_visible w = true.
Proof.
  intros H. cbn in H.
  repeat (destruct H as [<- | H]; [reflexivity |]). destruct H.
Qed.

Lemma blank_no_visible s : blank s -> no_visible s = true.
Proof.
  intros (l & Hl & ->). induction l as [ | w l IH]; [reflexivity |].
  inversion Hl as [ | ? ? Hw Hrest]; subst.
  rewrite concat_cons_s, no_visible_app, (white_no_visible w Hw).
  apply IH, Hrest.
Qed.

(** [trimEnd] leaves everything up to a visible character as it is. *)
Lemma trimEnd_app_visible c r : forall p,
  visible c = true ->
  JsString.trimEnd (p ++ String c r)%string
  = (p ++ String c (JsString.trimEnd r))%string.
Proof.
  intros p Hc.
  assert (Hnb : forall q,
             String.eqb (JsString.trimStart (q ++ String c r)%string) ""
             = false).
  { intros q. apply String.eqb_neq. intros H.
    apply trimStart_empty, blank_no_visible in H.
    rewrite no_visible_app in H. cbn [no_visible] in H. rewrite Hc in H.
    cbn in H. rewrite andb_false_r in H. discriminate H. }
  induction p as [ | a p IH].
  - cbn [append]. pose proof (Hnb ""%string) as H0. cbn [append] in H0.
    cbn [JsString.trimEnd]. rewrite H0. reflexivity.
  - pose proof (Hnb (String a p)) as H0. cbn [append] in *.
    cbn [JsString.trimEnd]. rewrite H0, IH. reflexivity.
Qed.

Lemma trimStart_card r :
  JsString.trimStart (NL ++ "  Country: " ++ r)%string
  = ("Country: " ++ r)%string.
Proof. reflexivity. Qed.

Lemma card_text n r :
  JsString.trim (NL ++ "  Country: " ++ n ++ " (" ++ r)%string
  = ("Country: " ++ n ++ " (" ++ JsString.trimEnd r)%string.
Proof.
  unfold JsString.trim. rewrite trimStart_card.
  replace ("Country: " ++ n ++ " (" ++ r)%string
    with (("Country: " ++ n ++ " ") ++ String "(" r)%string
    by (cbn [append]; rewrite append_assoc_s; reflexivity).
  rewrite trimEnd_app_visible by reflexivity.
  cbn [append]. rewrite append_assoc_s. reflexivity.
Qed.

(** X13.  A card that is produced has no white space in front of it:
    it starts with ["Country: "], the name of the record and [" ("]. *)
Theorem formatCountryInfo_starts_with_name :
  forall c text,
    formatCountryInfo c = Ok text ->
    exists name rest,
      Js.prop "name" (Some c) = Ok name
      /\ text = ("Country: " ++ Js.to_string name ++ " (" ++ rest)%string.
Proof.
  intros c text. unfold formatCountryInfo.
  destruct (Js.prop "name" (Some c)) as [name | ]; cbn [rbind]; [| discriminate].
  unfold Js.template at 1.
  destruct (Js.renders name); cbn [rbind]; [| discriminate].
  repeat match goal with
         | |- context [rbind ?p _] =>
             destruct p; cbn [rbind]; [| discriminate]
         end.
  intros H.
  match type of H with
  | Ok (JsString.trim (NL ++ "  Country: " ++ ?n ++ " (" ++ ?r)%string) = _ =>
      exists name, (JsString.trimEnd r); split; [reflexivity |];
      transitivity (JsString.trim (NL ++ "  Country: " ++ n ++ " (" ++ r)%string);
      [congruence | apply card_text]
  end.
Qed.

Lemma formatCountryInfo_starts_with_name_witness :
  exists name rest,
    Js.prop "name" (Some Sample.china) = Ok name
    /\ match formatCountryInfo Sample.china with
       | Ok text => text
       | Throw => ""%string
       end = ("Country: " ++ Js.to_string name ++ " (" ++ rest)%string.
Proof.
  apply (formatCountryInfo_starts_with_name Sample.china).
  vm_compute. reflexivity.
Defined.

(** ** The table of observations *)

Lemma map_r_total {B} (f : json -> result B) : forall l,
  Forall (fun x => exists y, f x = Ok y) l ->
  exists r, Js.map_r f l = Ok r /\ List.length r = List.length l.
Proof.
  induction l as [ | x l IH]; intros Hall; cbn.
  - exists []. split; reflexivity.
  - inversion Hall as [ | ? ? [y Hy] Hl]; subst. rewrite Hy. cbn.
    destruct (IH Hl) as (r & Hr & Hlen). rewrite Hr. cbn.
    exists (y :: r). split; [reflexivity | cbn; rewrite Hlen; reflexivity].
Qed.






(** ** How many requests a call makes *)

Section BudgetFacts.

Variable upstream : list (request * axios_outcome) -> request -> axios_outcome.
Variable ToNumber : json -> option Z.
Variable toLocaleString : json -> string.

Lemma spends_weaken {A} (m : M A) n n' :
  (n <= n')%nat -> spends n m -> spends n' m.
Proof. intros Hle H w. specialize (H w). lia. Qed.

Lemma spends_ret {A} (a : A) : spends 0 (ret a).
Proof. intros w. cbn. lia. Qed.

Lemma spends_lift {A} (r : result A) : spends 0 (lift r).
Proof. intros w. cbn. lia. Qed.

Lemma spends_bind {A B} (m : M A) (f : A -> M B) a b :
  spends a m -> (forall x, spends b (f x)) -> spends (a + b) (bind m f).
Proof.
  intros Hm Hf w. unfold bind. specialize (Hm w).
  destruct (m w) as [[x | ] w']; cbn [snd] in *; [| lia].
  specialize (Hf x w'). lia.
Qed.

Lemma spends_requests {A} (m : M A) n w :
  spends n m -> (requests_issued m w <= n)%nat.
Proof. intros H. unfold requests_issued. specialize (H w). lia. Qed.

Lemma spends_getCountries : spends 5 (getCountries upstream ToNumber).
Proof.
  intros w. destruct (COUNTRIES_CACHE w) as [ | c0 cs] eqn:Hc.
  - destruct (getCountries_fetch_bounded upstream ToNumber w Hc)
      as (served & Hlen & _ & _ & Hrun). cbn zeta in Hrun, Hlen.
    rewrite Hrun.
    destruct (Js.filter real_country (fold_left Js.concat (payloads served) []));
      cbn [snd traffic set_COUNTRIES_CACHE]; rewrite length_app; lia.
  - rewrite getCountries_cached by congruence. cbn. lia.
Qed.

Lemma spends_getIndicators : spends 10 (getIndicators upstream ToNumber).
Proof.
  intros w. destruct (INDICATORS_CACHE w) as [ | c0 cs] eqn:Hc.
  - destruct (getIndicators_fetch upstream ToNumber w Hc)
      as (served & Hlen & _ & Hrun). cbn zeta in Hrun, Hlen.
    rewrite Hrun. cbn [snd traffic]. rewrite length_app. lia.
  - rewrite getIndicators_cached by congruence. cbn. lia.
Qed.

Lemma spends_getCountryData countryCode indicatorId years :
  spends 1 (getCountryData upstream countryCode indicatorId years).
Proof.
  unfold getCountryData. apply (spends_bind _ _ 1 0).
  - intros w. cbn. rewrite length_app. cbn. lia.
  - intros response. destruct (Js.truthy (Some response)); [| apply spends_ret].
    destruct (Js.index1 response) as [[ | | | | | ] | ];
      first [apply spends_ret | apply spends_lift].
Qed.

(** What [handleIndicatorData] does after the countries are resolved. *)
Lemma spends_after_countries m indicatorKey countryCode years countries :
  spends 1
    (country <- lift (find_country countries countryCode) ;;
     if negb (Js.truthy country) then ret "Error: Country not found"%string
     else
       id <- lift (Js.prop "id" country) ;;
       idText <- lift (Js.template id) ;;
       data <- getCountryData upstream idText (member_to_string m) years ;;
       name <- lift (Js.prop "name" country) ;;
       nameText <- lift (Js.template name) ;;
       lift (formatIndicatorData toLocaleString data
               (nameText ++ " - " ++ indicatorName_of m indicatorKey)%string)).
Proof.
  apply (spends_bind _ _ 0 1); [apply spends_lift |]. intros country.
  destruct (negb (Js.truthy country));
    [apply (spends_weaken _ 0); [lia | apply spends_ret] |].
  apply (spends_bind _ _ 0 1); [apply spends_lift |]. intros id.
  apply (spends_bind _ _ 0 1); [apply spends_lift |]. intros idText.
  apply (spends_bind _ _ 1 0); [apply spends_getCountryData |]. intros data.
  apply (spends_bind _ _ 0 0); [apply spends_lift |]. intros name.
  apply (spends_bind _ _ 0 0); [apply spends_lift |]. intros nameText.
  apply spends_lift.
Qed.

Lemma spends_handleIndicatorData countryCode indicatorKey years :
  spends 6 (handleIndicatorData upstream ToNumber toLocaleString
              countryCode indicatorKey years).
Proof.
  unfold handleIndicatorData.
  destruct (COMMON_INDICATORS_get indicatorKey) as [m | ];
    [| apply (spends_weaken _ 0); [lia | apply spends_ret]].
  destruct (negb (member_truthy (Some m)));
    [apply (spends_weaken _ 0); [lia | apply spends_ret] |].
  apply (spends_bind _ _ 5 1); [apply spends_getCountries |].
  intros countries. apply spends_after_countries.
Qed.

Lemma spends_listing region incomeLevel countries :
  spends 0
    (shown <- lift (filteredCountries region incomeLevel countries) ;;
     lines <- lift (Js.map_r countryLine shown) ;;
     ret (if String.eqb (JsString.join "\n" lines) ""
          then "No countries found matching the criteria"%string
          else JsString.join "\n" lines)).
Proof.
  apply (spends_bind _ _ 0 0); [apply spends_lift |]. intros shown.
  apply (spends_bind _ _ 0 0); [apply spends_lift |]. intros lines.
  apply spends_ret.
Qed.

Lemma spends_details countryCode countries :
  spends 0
    (country <- lift (find_country countries countryCode) ;;
     match country with
     | Some c =>
         if negb (Js.truthy country) then ret "Error: Country not found"%string
         else lift (formatCountryInfo c)
     | None => ret "Error: Country not found"%string
     end).
Proof.
  apply (spends_bind _ _ 0 0); [apply spends_lift |]. intros [c | ];
    [| apply spends_ret].
  destruct (negb (Js.truthy (Some c))); [apply spends_ret | apply spends_lift].
Qed.

Lemma spends_search keyword indicators :
  spends 0
    (shown <- lift (filteredIndicators keyword indicators) ;;
     if (Z.of_nat (List.length shown) =? 0)
     then ret "No related indicators found"%string
     else
       lines <- lift (Js.map_r indicatorLine shown) ;;
       ret (JsString.join "\n" lines)).
Proof.
  apply (spends_bind _ _ 0 0); [apply spends_lift |]. intros shown.
  destruct (Z.of_nat (List.length shown) =? 0); [apply spends_ret |].
  apply (spends_bind _ _ 0 0); [apply spends_lift |]. intros lines.
  apply spends_ret.
Qed.

Lemma spends_call_tool t :
  spends (request_budget t) (call_tool upstream ToNumber toLocaleString t).
Proof.
  destruct t; cbn [call_tool request_budget];
    try apply spends_handleIndicatorData.
  - apply (spends_bind _ _ 5 0); [apply spends_getCountries |].
    intros countries. apply spends_listing.
  - apply (spends_bind _ _ 5 0); [apply spends_getCountries |].
    intros countries. apply spends_details.
  - apply (spends_bind _ _ 10 0); [apply spends_getIndicators |].
    intros indicators. apply spends_search.
Qed.

Lemma getIndicators_never_throws w :
  exists l, fst (getIndicators upstream ToNumber w) = Ok l.
Proof.
  destruct (INDICATORS_CACHE w) as [ | c0 cs] eqn:Hc.
  - destruct (getIndicators_fetch upstream ToNumber w Hc)
      as (served & _ & _ & Hrun). cbn zeta in Hrun. rewrite Hrun.
    eexists. reflexivity.
  - rewrite getIndicators_cached by congruence. eexists. reflexivity.
Qed.

End BudgetFacts.

(** X15.  One call of a tool makes at most 5 requests when it lists or
    details countries, at most 10 when it searches indicators and at
    most 6 when it queries an indicator, whatever the upstream answers
    and whether the call returns or throws. *)
Theorem call_tool_request_budget :
  forall upstream ToNumber toLocaleString t w,
    (requests_issued (call_tool upstream ToNumber toLocaleString t) w
     <= request_budget t)%nat.
Proof.
  intros upstream ToNumber toLocaleString t w.
  apply spends_requests, spends_call_tool.
Qed.

(** X16.  Once both collections are cached, the tools that list
    countries, detail a country or search indicators make no request,
    and an indicator query makes at most one. *)
Theorem call_tool_warm_budget :
  forall upstream ToNumber toLocaleString t w,
    COUNTRIES_CACHE w <> [] ->
    INDICATORS_CACHE w <> [] ->
    (requests_issued (call_tool upstream ToNumber toLocaleString t) w
     <= warm_budget t)%nat.
Proof.
  intros upstream ToNumber toLocaleString t w Hc Hi.
  pose proof (getCountries_cached upstream ToNumber w Hc) as Hgc.
  pose proof (getIndicators_cached upstream ToNumber w Hi) as Hgi.
  destruct t; cbn [call_tool warm_budget];
    try (unfold handleIndicatorData;
         destruct (COMMON_INDICATORS_get indicator) as [m | ];
         [| apply spends_requests, (spends_weaken _ 0);
            [lia | apply spends_ret]];
         destruct (negb (member_truthy (Some m)));
         [apply spends_requests, (spends_weaken _ 0);
          [lia | apply spends_ret] |]);
    unfold requests_issued, bind at 1; rewrite ?Hgc, ?Hgi.
  - pose proof (spends_listing region incomeLevel (COUNTRIES_CACHE w) w). lia.
  - pose proof (spends_details countryCode (COUNTRIES_CACHE w) w). lia.
  - pose proof (spends_search keyword (INDICATORS_CACHE w) w). lia.
  - pose proof (spends_after_countries upstream toLocaleString m indicator
                  countryCode (years_or_default years) (COUNTRIES_CACHE w) w).
    lia.
  - pose proof (spends_after_countries upstream toLocaleString m indicator
                  countryCode (years_or_default years) (COUNTRIES_CACHE w) w).
    lia.
  - pose proof (spends_after_countries upstream toLocaleString m indicator
                  countryCode (years_or_default years) (COUNTRIES_CACHE w) w).
    lia.
  - pose proof (spends_after_countries upstream toLocaleString m indicator
                  countryCode (years_or_default years) (COUNTRIES_CACHE w) w).
    lia.
Qed.

Lemma call_tool_warm_budget_witness :
  (requests_issued
     (call_tool Fixture.both Sample.NaN_for_all Sample.plain_locale
        (search_indicators "gdp"))
     (snd (preload Fixture.both Sample.NaN_for_all initial_world))
   <= 0)%nat.
Proof.
  apply (call_tool_warm_budget Fixture.both Sample.NaN_for_all Sample.plain_locale
           (search_indicators "gdp")
           (snd (preload Fixture.both Sample.NaN_for_all initial_world)));
    vm_compute; discriminate.
Defined.

(** X17.  The start-up preload makes at most 15 requests.  It throws
    exactly when resolving the countries throws, and the indicators
    are then not asked for. *)
Theorem preload_budget_and_failure :
  forall upstream ToNumber w,
    (requests_issued (preload upstream ToNumber) w <= 15)%nat
    /\ (fst (preload upstream ToNumber w) = Throw
        <-> fst (getCountries upstream ToNumber w) = Throw)
    /\ (fst (getCountries upstream ToNumber w) = Throw ->
        snd (preload upstream ToNumber w)
        = snd (getCountries upstream ToNumber w)).
Proof.
  intros upstream ToNumber w. split; [| split].
  - apply spends_requests. unfold preload.
    apply (spends_bind _ _ 5 10); [apply spends_getCountries |]. intros _.
    apply (spends_bind _ _ 10 0); [apply spends_getIndicators |]. intros _.
    apply spends_ret.
  - unfold preload, bind.
    destruct (getCountries upstream ToNumber w) as [[countries | ] w1]; cbn [fst].
    + destruct (getIndicators_never_throws upstream ToNumber w1) as [l Hl].
      destruct (getIndicators upstream ToNumber w1) as [[l' | ] w2];
        cbn in *; [split; discriminate | discriminate Hl].
    + split; reflexivity.
  - unfold preload, bind.
    destruct (getCountries upstream ToNumber w) as [[countries | ] w1]; cbn;
      [discriminate | reflexivity].
Qed.

(** ** The indicator table and the tool configurations *)

Lemma indicatorName_of_table key id :
  assoc key COMMON_INDICATORS = Some id ->
  forall asked, indicatorName_of (Own id) asked = key.
Proof.
  unfold COMMON_INDICATORS at 1. cbn [assoc].
  repeat match goal with
         | |- context [String.eqb key ?k] =>
             let E := fresh "E" in
             destruct (String.eqb key k) eqn:E;
             [ apply String.eqb_eq in E; subst key; intros H;
               injection H as <-; intros asked; vm_compute; reflexivity
             | clear E ]
         end.
  discriminate.
Qed.

(** X18.  The table can be read both ways: the name shown for the
    series code of a table key is that key again, whatever key the
    user asked for, so no two keys of the table share a series code. *)
Theorem indicator_key_round_trip :
  forall key id,
    assoc key COMMON_INDICATORS = Some id ->
    (forall asked, indicatorName_of (Own id) asked = key)
    /\ (forall other, assoc other COMMON_INDICATORS = Some id -> other = key).
Proof.
  intros key id H. split; [apply indicatorName_of_table, H |].
  intros other Ho.
  rewrite <- (indicatorName_of_table other id Ho ""%string).
  apply indicatorName_of_table, H.
Qed.

Lemma indicator_key_round_trip_witness :
  indicatorName_of (Own "SP.POP.TOTL") "population" = "POPULATION"%string.
Proof.
  destruct (indicator_key_round_trip "POPULATION" "SP.POP.TOTL") as [Hname _];
    [reflexivity | apply Hname].
Defined.

(** X19.  Every key a tool configuration advertises passes the guard
    of [handleIndicatorData], and the configurations list the keys of
    the table, once each and in table order.  The handler itself never
    looks at the configuration: each of the four tools answers any
    request exactly as the other three do. *)
Theorem tool_category_not_checked :
  (forall name keys key,
      In (name, keys) toolConfigs -> In key keys ->
      exists id,
        COMMON_INDICATORS_get key = Some (Own id)
        /\ member_truthy (Some (Own id)) = true)
  /\ List.concat (map snd toolConfigs) = map fst COMMON_INDICATORS
  /\ (forall upstream ToNumber toLocaleString tool1 tool2
             countryCode indicator years,
        In tool1 indicator_tools -> In tool2 indicator_tools ->
        call_tool upstream ToNumber toLocaleString
          (tool1 countryCode indicator years)
        = call_tool upstream ToNumber toLocaleString
            (tool2 countryCode indicator years)).
Proof.
  split; [| split].
  - intros name keys key Hcfg Hkey. unfold toolConfigs in Hcfg.
    repeat (destruct Hcfg as [Hcfg | Hcfg];
            [injection Hcfg as <- <-;
             repeat (destruct Hkey as [<- | Hkey];
                     [eexists; split; vm_compute; reflexivity |]);
             destruct Hkey |]).
    destruct Hcfg.
  - reflexivity.
  - intros upstream ToNumber toLocaleString tool1 tool2 countryCode indicator
      years H1 H2.
    rewrite !call_indicator_tool by assumption. reflexivity.
Qed.

(** ** More on the search of indicators *)

Lemma filter_ext p q : forall l,
  (forall x, p x = q x) -> Js.filter p l = Js.filter q l.
Proof.
  intros l H. induction l as [ | a l IH]; cbn; [reflexivity |].
  rewrite H, IH. reflexivity.
Qed.

Lemma keyword_matches_case a b indicator :
  JsString.toLowerCase a = JsString.toLowerCase b ->
  keyword_matches a indicator = keyword_matches b indicator.
Proof. unfold keyword_matches. intros ->. reflexivity. Qed.

(** X20.  Keywords with the same lower-case form list the same
    indicators.  For a keyword of ASCII characters, the keyword, its
    upper-case form and its lower-case form list the same indicators:
    the search does not depend on the letter case of such a keyword.
    Outside ASCII the case maps of the language do not undo each other
    and nothing is claimed. *)
Theorem search_keyword_case :
  forall keyword indicators,
    (forall other,
        JsString.toLowerCase other = JsString.toLowerCase keyword ->
        filteredIndicators other indicators
        = filteredIndicators keyword indicators)
    /\ (ascii_only keyword = true ->
        filteredIndicators (JsString.toUpperCase keyword) indicators
        = filteredIndicators keyword indicators
        /\ filteredIndicators (JsString.toLowerCase keyword) indicators
           = filteredIndicators keyword indicators).
Proof.
  intros keyword indicators.
  assert (H : forall other,
             JsString.toLowerCase other = JsString.toLowerCase keyword ->
             filteredIndicators other indicators
             = filteredIndicators keyword indicators).
  { intros other Hcase. unfold filteredIndicators.
    rewrite (filter_ext (keyword_matches other) (keyword_matches keyword));
      [reflexivity |].
    intros x. apply keyword_matches_case, Hcase. }
  split; [exact H |]. intros _. split; apply H.
  - apply map_string_compose, lower_upper_char.
  - apply map_string_compose, lower_lower_char.
Qed.

Lemma search_keyword_case_witness :
  filteredIndicators "GDP" [Fixture.gdp; Fixture.population]
  = Ok [Fixture.gdp]
  /\ filteredIndicators "gdp" [Fixture.gdp; Fixture.population]
     = Ok [Fixture.gdp].
Proof.
  destruct (search_keyword_case "gdp" [Fixture.gdp; Fixture.population])
    as [_ Hcase].
  destruct (Hcase eq_refl) as [Hupper _].
  split; [| reflexivity].
  transitivity (filteredIndicators "gdp" [Fixture.gdp; Fixture.population]);
    [exact Hupper | reflexivity].
Defined.

Lemma includes_empty s : JsString.includes s "" = true.
Proof. destruct s; reflexivity. Qed.

(** X21.  An empty keyword matches every record whose name is a
    string: the tool then lists the first 20 indicators of the
    catalogue. *)
Theorem search_empty_keyword :
  forall indicators,
    (forall i, In i indicators ->
       exists name, Js.prop "name" (Some i) = Ok (Some (JStr name))) ->
    filteredIndicators "" indicators = Ok (firstn 20 indicators).
Proof.
  intros indicators Hnames. unfold filteredIndicators.
  assert (Hf : Js.filter (keyword_matches "") indicators = Ok indicators).
  { induction indicators as [ | i l IH]; [reflexivity |].
    cbn [Js.filter]. destruct (Hnames i (or_introl eq_refl)) as [name Hn].
    unfold keyword_matches at 1. rewrite Hn. cbn [rbind Js.lower_includes].
    change (JsString.toLowerCase "") with ""%string.
    rewrite includes_empty. cbn [rbind].
    rewrite IH; [reflexivity |]. intros x Hin. apply Hnames. right. exact Hin. }
  rewrite Hf. reflexivity.
Qed.

Lemma search_empty_keyword_witness :
  filteredIndicators "" [Fixture.gdp; Fixture.population]
  = Ok (firstn 20 [Fixture.gdp; Fixture.population]).
Proof.
  apply (search_empty_keyword [Fixture.gdp; Fixture.population]).
  intros i [<- | [<- | []]]; eexists; reflexivity.
Defined.

(** ** More on the listing of countries *)

Lemma countryLine_bracket c line :
  countryLine c = Ok line -> substring " (" line.
Proof.
  unfold countryLine.
  repeat match goal with
         | |- context [rbind ?p _] =>
             destruct p; cbn [rbind]; [| discriminate]
         end.
  intros H. injection H as <-. unfold substring.
  eexists. eexists. reflexivity.
Qed.

Lemma join_head sep x l : exists tail, JsString.join sep (x :: l) = (x ++ tail)%string.
Proof.
  destruct l as [ | y l]; cbn [JsString.join].
  - exists ""%string. rewrite append_nil_s. reflexivity.
  - eexists. reflexivity.
Qed.

Lemma substring_app_r t s tail : substring t s -> substring t (s ++ tail)%string.
Proof.
  intros (pre & post & ->). exists pre, (post ++ tail)%string.
  rewrite !append_assoc_s. reflexivity.
Qed.

(** X22.  When the listing tool returns, it answers ['No countries
    found matching the criteria'] exactly when no record passes the
    filters; the countries are resolved and nothing else is requested. *)
Theorem get_countries_nothing_found_iff :
  forall upstream ToNumber toLocaleString w region incomeLevel countries w1
         shown lines,
    getCountries upstream ToNumber w = (Ok countries, w1) ->
    filteredCountries region incomeLevel countries = Ok shown ->
    Js.map_r countryLine shown = Ok lines ->
    exists text,
      call_tool upstream ToNumber toLocaleString
        (get_countries region incomeLevel) w = (Ok text, w1)
      /\ (text = "No countries found matching the criteria"%string
          <-> shown = []).
Proof.
  intros upstream ToNumber toLocaleString w region incomeLevel countries w1
    shown lines Hget Hshown Hlines.
  cbn [call_tool]. unfold bind. rewrite Hget. unfold lift.
  rewrite Hshown, Hlines. eexists. split; [reflexivity |].
  destruct shown as [ | c shown].
  - cbn in Hlines. injection Hlines as <-. cbn. split; reflexivity.
  - cbn [Js.map_r] in Hlines.
    destruct (countryLine c) as [line | ] eqn:Hline;
      cbn [rbind] in Hlines; [| discriminate Hlines].
    destruct (Js.map_r countryLine shown) as [more | ];
      cbn [rbind] in Hlines; [| discriminate Hlines].
    injection Hlines as <-.
    destruct (join_head "\n" line more) as [tail Hjoin].
    assert (Hsub : JsString.includes (JsString.join "\n" (line :: more)) " ("
                   = true).
    { apply includes_spec. rewrite Hjoin. apply substring_app_r.
      apply (countryLine_bracket c), Hline. }
    split; [| discriminate].
    destruct (String.eqb (JsString.join "\n" (line :: more)) "") eqn:Heq.
    + apply String.eqb_eq in Heq. rewrite Heq in Hsub. discriminate Hsub.
    + intros Htext. rewrite Htext in Hsub. discriminate Hsub.
Qed.

Lemma get_countries_nothing_found_iff_witness :
  exists text,
    call_tool Sample.two_pages Sample.NaN_for_all Sample.plain_locale
      (get_countries (Some "Antarctica"%string) None) initial_world
    = (Ok text,
       snd (getCountries Sample.two_pages Sample.NaN_for_all initial_world))
    /\ (text = "No countries found matching the criteria"%string
        <-> @nil json = []).
Proof.
  apply (get_countries_nothing_found_iff Sample.two_pages Sample.NaN_for_all
           Sample.plain_locale initial_world (Some "Antarctica"%string) None
           [Sample.china; Sample.usa]
           (snd (getCountries Sample.two_pages Sample.NaN_for_all initial_world))
           [] []); vm_compute; reflexivity.
Defined.

(** ** Exceptions of the observation query and of the search *)

Lemma has_value_throws p : has_value p = Throw <-> p = JNull.
Proof.
  unfold has_value. destruct p as [ | b | n | s | l | fields ];
    cbn [Js.prop rbind];
    repeat match goal with
           | |- context [String.eqb "value" "length"] =>
               change (String.eqb "value" "length") with false; cbn iota
           end;
    cbn [rbind]; split; try discriminate; reflexivity.
Qed.

(** X23.  [getCountryData] throws exactly when the response is truthy
    and its index 1 is an array with a [null] element; its one request
    has been made by then. *)
Theorem getCountryData_throws_iff :
  forall upstream countryCode indicatorId years w,
  exists response,
    response
    = normalize
        (upstream (traffic w)
           (mkRequest ("country/" ++ countryCode ++ "/indicator/" ++ indicatorId)
              None years))
    /\ (fst (getCountryData upstream countryCode indicatorId years w) = Throw
        <-> Js.truthy (Some response) = true
            /\ exists points,
                 Js.index1 response = Some (JArr points) /\ In JNull points)
    /\ requests_issued (getCountryData upstream countryCode indicatorId years) w
       = 1%nat.
Proof.
  intros upstream countryCode indicatorId years w.
  eexists. split; [reflexivity |].
  unfold requests_issued, getCountryData, bind.
  rewrite makeWorldBankRequest_run. cbn [qp_page qp_per_page].
  set (response := normalize _).
  assert (Hlen : forall (r : result (list json)),
             (List.length
                (traffic (snd (r, mkWorld (COUNTRIES_CACHE w) (INDICATORS_CACHE w)
                                    (traffic w ++ [(mkRequest
                                       ("country/" ++ countryCode ++ "/indicator/"
                                          ++ indicatorId) None years,
                                       upstream (traffic w) (mkRequest
                                       ("country/" ++ countryCode ++ "/indicator/"
                                          ++ indicatorId) None years))]))))
              - List.length (traffic w) = 1)%nat).
  { intros r. cbn [snd traffic]. rewrite length_app. cbn. lia. }
  destruct (Js.truthy (Some response)).
  - destruct (Js.index1 response) as [[ | b | n | s | points | f ] | ] eqn:Hidx;
      try (split; [| apply (Hlen (Ok []))];
           split; [discriminate | intros (_ & points & Hp & _); discriminate Hp]).
    split; [| apply Hlen]. unfold lift. cbn [fst].
    rewrite filter_throws. split.
    + intros (x & Hin & Hx). apply has_value_throws in Hx. subst x.
      split; [reflexivity |]. exists points. auto.
    + intros (_ & points' & Hp & Hin). injection Hp as <-.
      exists JNull. split; [exact Hin | reflexivity].
  - split; [| apply (Hlen (Ok []))].
    split; [discriminate | intros [H _]; discriminate H].
Qed.

Lemma keyword_matches_throws keyword indicator :
  keyword_matches keyword indicator = Throw
  <-> indicator = JNull
      \/ (exists name, Js.prop "name" (Some indicator) = Ok name
                       /\ forall s, name <> Some (JStr s))
      \/ (exists name id,
            Js.prop "name" (Some indicator) = Ok (Some (JStr name))
            /\ JsString.includes (JsString.toLowerCase name)
                 (JsString.toLowerCase keyword) = false
            /\ Js.prop "id" (Some indicator) = Ok id
            /\ forall s, id <> Some (JStr s)).
Proof.
  unfold keyword_matches.
  destruct (Js.prop "name" (Some indicator)) as [name | ] eqn:Hname;
    cbn [rbind].
  - assert (Hnn : indicator <> JNull) by (intros ->; discriminate Hname).
    destruct name as [[ | b | n | s | l | f ] | ]; cbn [Js.lower_includes rbind];
      try (split; [intros _; right; left; eexists; split;
                    [reflexivity | intros s' Hs; discriminate Hs]
                  | reflexivity]).
    destruct (JsString.includes (JsString.toLowerCase s)
                (JsString.toLowerCase keyword)) eqn:Hinc.
    + split; [discriminate |].
      intros [H | [(name & Hn & Hs) | (name & id & Hn & Hi & _)]].
      * congruence.
      * injection Hn as <-. exfalso. apply (Hs s). reflexivity.
      * injection Hn as <-. congruence.
    + destruct (Js.prop "id" (Some indicator)) as [id | ] eqn:Hid;
        cbn [rbind].
      * destruct id as [[ | b | n | s' | l | f ] | ]; cbn [Js.lower_includes];
          try (split; [intros _; right; right; exists s; eexists;
                        repeat split; auto; intros s'' Hs; discriminate Hs
                      | reflexivity]).
        split; [discriminate |].
        intros [H | [(name & Hn & Hs) | (name & id & Hn & _ & Hi & Hs)]].
        -- congruence.
        -- injection Hn as <-. exfalso. apply (Hs s). reflexivity.
        -- injection Hi as <-. exfalso. apply (Hs s'). reflexivity.
      * exfalso. destruct indicator; cbn in Hid; try discriminate Hid.
        apply Hnn. reflexivity.
  - split; [| reflexivity]. intros _. left.
    destruct indicator; cbn in Hname; try discriminate Hname; reflexivity.
Qed.

(** X24.  The search throws exactly when the catalogue holds a record
    the predicate throws on: a [null] record, one whose name is not a
    string, or one whose name does not match and whose id is not a
    string.  The whole catalogue is tested before the result is cut to
    20, so such a record fails the search wherever it stands. *)
Theorem search_throws_iff :
  forall keyword indicators,
    filteredIndicators keyword indicators = Throw
    <-> exists i,
          In i indicators
          /\ (i = JNull
              \/ (exists name, Js.prop "name" (Some i) = Ok name
                               /\ forall s, name <> Some (JStr s))
              \/ (exists name id,
                    Js.prop "name" (Some i) = Ok (Some (JStr name))
                    /\ JsString.includes (JsString.toLowerCase name)
                         (JsString.toLowerCase keyword) = false
                    /\ Js.prop "id" (Some i) = Ok id
                    /\ forall s, id <> Some (JStr s))).
Proof.
  intros keyword indicators. unfold filteredIndicators.
  assert (H : rbind (Js.filter (keyword_matches keyword) indicators)
                (fun matching => Ok (firstn 20 matching)) = Throw
              <-> Js.filter (keyword_matches keyword) indicators = Throw).
  { destruct (Js.filter (keyword_matches keyword) indicators); cbn [rbind];
      split; congruence. }
  rewrite H, filter_throws. split.
  - intros (i & Hin & Hi). exists i. split; [exact Hin |].
    apply keyword_matches_throws, Hi.
  - intros (i & Hin & Hi). exists i. split; [exact Hin |].
    apply keyword_matches_throws, Hi.
Qed.

(** ** The answer of an indicator query *)

(** X25.  For a key of the table and a code the lookup finds, each of
    the four tools renders the identifier of the record found, queries
    the observations under that identifier (not the code of the user)
    and the series code of the key, renders the name of the record, and
    answers the table titled with that name and the key; the countries
    are not resolved twice.  An identifier that does not render (an
    object with a [toString] field) fails the call before any query is
    sent, a name that does not render fails it after the query.  When
    both render, the call is the query followed by the table. *)
Theorem indicator_query_answers :
  forall upstream ToNumber toLocaleString tool countryCode indicatorKey id years
         w countries w1 c,
    In tool indicator_tools ->
    assoc indicatorKey COMMON_INDICATORS = Some id ->
    getCountries upstream ToNumber w = (Ok countries, w1) ->
    find_country countries countryCode = Ok (Some c) ->
    exists recordId name,
      Js.prop "id" (Some c) = Ok recordId
      /\ Js.prop "name" (Some c) = Ok name
      /\ call_tool upstream ToNumber toLocaleString
           (tool countryCode indicatorKey years) w
         = (idText <- lift (Js.template recordId) ;;
            data <- getCountryData upstream idText id
                      (years_or_default years) ;;
            nameText <- lift (Js.template name) ;;
            lift (formatIndicatorData toLocaleString data
                    (nameText ++ " - " ++ indicatorKey)%string)) w1
      /\ (Js.renders recordId = false ->
          call_tool upstream ToNumber toLocaleString
            (tool countryCode indicatorKey years) w = (Throw, w1))
      /\ (Js.renders recordId = true -> Js.renders name = true ->
          call_tool upstream ToNumber toLocaleString
            (tool countryCode indicatorKey years) w
          = (data <- getCountryData upstream (Js.to_string recordId) id
                       (years_or_default years) ;;
             lift (formatIndicatorData toLocaleString data
                     (Js.to_string name ++ " - " ++ indicatorKey)%string)) w1).
Proof.
  intros upstream ToNumber toLocaleString tool countryCode indicatorKey id years
    w countries w1 c Htool Hkey Hget Hfind.
  destruct (find_spec _ _ _ Hfind) as (_ & _ & _ & Hm & _).
  pose proof (code_matches_object _ _ Hm) as Htruthy.
  assert (Hobj : exists fields, c = JObj fields).
  { apply code_matches_true in Hm.
    destruct c; destruct Hm as [H | H]; cbn in H; try discriminate; eauto. }
  destruct Hobj as [fields ->].
  exists (Js.lookup "id" fields), (Js.lookup "name" fields).
  split; [reflexivity |]. split; [reflexivity |].
  assert (Hcall :
    call_tool upstream ToNumber toLocaleString
      (tool countryCode indicatorKey years) w
    = (idText <- lift (Js.template (Js.lookup "id" fields)) ;;
       data <- getCountryData upstream idText id (years_or_default years) ;;
       nameText <- lift (Js.template (Js.lookup "name" fields)) ;;
       lift (formatIndicatorData toLocaleString data
               (nameText ++ " - " ++ indicatorKey)%string)) w1).
  { rewrite call_indicator_tool by exact Htool.
    unfold handleIndicatorData.
    pose proof (table_ids_truthy indicatorKey id Hkey) as Ht.
    unfold COMMON_INDICATORS_get in *. rewrite Hkey in *. rewrite Ht.
    cbn [negb]. unfold bind at 1. rewrite Hget.
    unfold bind at 1. unfold lift at 1. rewrite Hfind. rewrite Htruthy.
    cbn [negb]. unfold bind at 1. unfold lift at 1. cbn [Js.prop].
    cbn [member_to_string].
    rewrite (indicatorName_of_table indicatorKey id Hkey).
    unfold bind, lift.
    destruct (Js.template (Js.lookup "id" fields)) as [idText | ];
      [| reflexivity].
    destruct (getCountryData upstream idText id (years_or_default years) w1)
      as [[data | ] w2]; reflexivity. }
  split; [exact Hcall |]. split.
  - intros Hid. rewrite Hcall. unfold bind, lift, Js.template.
    rewrite Hid. reflexivity.
  - intros Hid Hname. rewrite Hcall. unfold bind, lift, Js.template.
    rewrite Hid, Hname. reflexivity.
Qed.

Lemma indicator_query_answers_witness :
  exists recordId name,
    Js.prop "id" (Some Sample.china) = Ok recordId
    /\ Js.prop "name" (Some Sample.china) = Ok name
    /\ call_tool Sample.two_pages Sample.NaN_for_all Sample.plain_locale
         (get_economic_data "cn" "GDP" None) initial_world
       = (idText <- lift (Js.template recordId) ;;
          data <- getCountryData Sample.two_pages idText
                    "NY.GDP.MKTP.CD" (years_or_default None) ;;
          nameText <- lift (Js.template name) ;;
          lift (formatIndicatorData Sample.plain_locale data
                  (nameText ++ " - " ++ "GDP")%string))
           (snd (getCountries Sample.two_pages Sample.NaN_for_all initial_world))
    /\ (Js.renders recordId = false ->
        call_tool Sample.two_pages Sample.NaN_for_all Sample.plain_locale
          (get_economic_data "cn" "GDP" None) initial_world
        = (Throw,
           snd (getCountries Sample.two_pages Sample.NaN_for_all initial_world)))
    /\ (Js.renders recordId = true -> Js.renders name = true ->
        call_tool Sample.two_pages Sample.NaN_for_all Sample.plain_locale
          (get_economic_data "cn" "GDP" None) initial_world
        = (data <- getCountryData Sample.two_pages (Js.to_string recordId)
                     "NY.GDP.MKTP.CD" (years_or_default None) ;;
           lift (formatIndicatorData Sample.plain_locale data
                   (Js.to_string name ++ " - " ++ "GDP")%string))
            (snd (getCountries Sample.two_pages Sample.NaN_for_all
                    initial_world))).
Proof.
  apply (indicator_query_answers Sample.two_pages Sample.NaN_for_all
           Sample.plain_locale get_economic_data "cn" "GDP" "NY.GDP.MKTP.CD" None
           initial_world [Sample.china; Sample.usa]).
  - left. reflexivity.
  - reflexivity.
  - vm_compute. reflexivity.
  - vm_compute. reflexivity.
Defined.
